(** * HFModel: shallow embedding of [engine/generation.py]

    The Python class [HFModel] wraps a HuggingFace model and its tokenizer.
    This development embeds the scheduling logic of that class: the
    generation-config builder, the batch-size estimator, the out-of-memory
    safe executor and the multi-pass batch plan of [generate_text].

    Conventions of the embedding:
    - Python [int] is [Z]; Python [float] is idealised as an exact rational
      [Q] (no rounding, no NaN, no infinities), except on the linear-fit
      path of the batch-size estimator, whose arithmetic is carried out on
      binary64 numbers with the operations of IEEE 754;
    - Python values that may be [None] are either [option] or the dynamic
      value type [pyval];
    - a raised exception is the [Raise] case of [result];
    - side effects (warnings, calls to the model, memory release) are
      recorded in an event trace that is threaded through the code. *)

From Stdlib Require Import ZArith QArith Qround Lia SpecFloat.
From stdpp Require Import base option list strings gmap sorting.

Local Open Scope Z_scope.

(** ** Python values, exceptions, results *)

(** Dynamically typed values stored in configuration attributes. *)
Inductive pyval : Type :=
| PNone
| PBool (b : bool)
| PInt (z : Z)
| PFloat (q : Q)
| PIntList (l : list Z).

(** [x is not None] *)
Definition is_not_None (v : pyval) : bool :=
  match v with PNone => false | _ => true end.

(** The exceptions the code raises or lets through.  In Python
    [torch.cuda.OutOfMemoryError] is a subclass of [RuntimeError]. *)
Inductive exn : Type :=
| RuntimeError (msg : string)
| OutOfMemoryError
| AssertionError (msg : string)
| ValueError (msg : string)
| ZeroDivisionError
| OverflowError
| IndexError
| AttributeError (name : string)
| OtherException (name : string).

(** [isinstance(e, RuntimeError)] *)
Definition isinstance_RuntimeError (e : exn) : bool :=
  match e with RuntimeError _ | OutOfMemoryError => true | _ => false end.

(** [isinstance(e, torch.cuda.OutOfMemoryError)] *)
Definition isinstance_OutOfMemoryError (e : exn) : bool :=
  match e with OutOfMemoryError => true | _ => false end.

Inductive result (A : Type) : Type :=
| Ok (a : A)
| Raise (e : exn).
Arguments Ok {A} a.
Arguments Raise {A} e.

Definition is_Ok {A} (r : result A) : bool :=
  match r with Ok _ => true | Raise _ => false end.

(** ** Binary64 numbers

    A Python [float] and a numpy [float64] are IEEE 754 binary64 numbers.
    Their arithmetic is the one the Standard Library specifies, at a
    precision of 53 bits and a largest exponent of 1024, every result
    rounded to the nearest number, ties to even. *)
Module Float64.

Definition prec : Z := 53.
Definition emax : Z := 1024.

Definition add : spec_float -> spec_float -> spec_float := SFadd prec emax.
Definition sub : spec_float -> spec_float -> spec_float := SFsub prec emax.
Definition mul : spec_float -> spec_float -> spec_float := SFmul prec emax.
Definition div : spec_float -> spec_float -> spec_float := SFdiv prec emax.

(** [float(n)] for an integer [n]. *)
Definition of_int (n : Z) : spec_float := binary_normalize prec emax n 0 false.

(** The quotient of two integers, [n / d]: the number nearest to the
    rational when [n] and [d] are below [2 ^ 53] in absolute value or [d]
    is a power of two.  A decimal literal such as [0.85] is read so. *)
Definition of_ratio (q : Q) : spec_float :=
  div (of_int (Qnum q)) (of_int (Zpos (Qden q))).

Definition zero : spec_float := S754_zero false.
Definition one : spec_float := of_int 1.
Definition half : spec_float := div one (of_int 2).

(** [x == 0], that is [!x] in C. *)
Definition is_zero (x : spec_float) : bool :=
  match x with S754_zero _ => true | _ => false end.

Definition signbit (x : spec_float) : bool :=
  match x with
  | S754_zero s | S754_infinity s | S754_finite s _ _ => s
  | S754_nan => false
  end.

(** C's [fmod]: the remainder of the division truncated towards zero, which
    is a binary64 number and has the sign of [a]. *)
Definition fmod (a b : spec_float) : spec_float :=
  match a, b with
  | S754_nan, _ | _, S754_nan => S754_nan
  | S754_infinity _, _ => S754_nan
  | _, S754_zero _ => S754_nan
  | _, S754_infinity _ => a
  | S754_zero _, S754_finite _ _ _ => a
  | S754_finite sa ma ea, S754_finite _ mb eb =>
      let ez := Z.min ea eb in
      let na := Zpos (shl_align ma ea ez).1 in
      let nb := Zpos (shl_align mb eb ez).1 in
      binary_normalize prec emax (cond_Zopp sa (na mod nb)) ez sa
  end.

(** C's [floor]. *)
Definition floor (x : spec_float) : spec_float :=
  match x with
  | S754_finite s m e =>
      if 0 <=? e then x
      else binary_normalize prec emax (Z.shiftr (cond_Zopp s (Zpos m)) (- e)) 0 s
  | _ => x
  end.

(** [a // b] when one of the operands is a numpy [float64]: numpy's
    [floor_divide].  A zero divisor gives an infinity or a NaN (and a
    warning), not an exception; otherwise the quotient is recovered from
    [fmod] and snapped to the nearest integer, as CPython does too. *)
Definition floor_divide (a b : spec_float) : spec_float :=
  if is_zero b then div a b
  else
    let modulus := fmod a b in
    let quotient := div (sub a modulus) b in
    let quotient :=
      if negb (is_zero modulus) && xorb (SFltb b zero) (SFltb modulus zero)
      then sub quotient one
      else quotient in
    if negb (is_zero quotient) then
      let floordiv := floor quotient in
      if SFltb half (sub quotient floordiv) then add floordiv one else floordiv
    else S754_zero (signbit (div a b)).

(** [int(x)]: the truncation towards zero; a NaN and the infinities are
    refused. *)
Definition to_int (x : spec_float) : result Z :=
  match x with
  | S754_nan => Raise (ValueError "cannot convert float NaN to integer")
  | S754_infinity _ => Raise OverflowError
  | S754_zero _ => Ok 0
  | S754_finite s m e =>
      Ok (cond_Zopp s (if 0 <=? e then Z.shiftl (Zpos m) e else Z.shiftr (Zpos m) (- e)))
  end.

End Float64.

(** Python's [sum] on a list of integers. *)
Definition sum (l : list Z) : Z := foldr Z.add 0 l.

(** Python truthiness of a value, as used by [if v:] and [not v]. *)
Definition truthy (v : pyval) : bool :=
  match v with
  | PNone => false
  | PBool b => b
  | PInt z => negb (z =? 0)
  | PFloat q => negb (Qeq_bool q 0)
  | PIntList l => match l with [] => false | _ => true end
  end.

(** [a < b] on floats. *)
Definition Qltb (a b : Q) : bool := negb (Qle_bool b a).

(** ** Effects: the event trace *)

Inductive warning : Type :=
| GreedyMultipleSequences            (* the UserWarning of line 426 *)
| ReducingBatchSize (old new : Z).   (* the RuntimeWarning of line 639 *)

Inductive event : Type :=
| SetAllSeeds (seed : Z)                 (* utils.set_all_seeds(seed) *)
| Warn (w : warning)                     (* warnings.warn(...) *)
| Generate (num_return_sequences : Z)    (* self.model.generate(...) *)
| GcCollect                              (* gc.collect() *)
| EmptyCache.                            (* torch.cuda.empty_cache() *)

(** A batch of token sequences: a 2-dimensional tensor of token ids. *)
Definition Tensor : Type := list (list Z).

(** The [stopping_patterns] argument: [list[str] | tuple[str] | bool | None]. *)
Inductive stopping_patterns_t : Type :=
| SPNone
| SPBool (b : bool)
| SPList (patterns : list string)
| SPTuple (patterns : list string).

Definition isinstance_list (p : stopping_patterns_t) : bool :=
  match p with SPList _ => true | _ => false end.
Definition isinstance_tuple (p : stopping_patterns_t) : bool :=
  match p with SPTuple _ => true | _ => false end.
Definition isinstance_bool (p : stopping_patterns_t) : bool :=
  match p with SPBool _ => true | _ => false end.
Definition truthy_patterns (p : stopping_patterns_t) : bool :=
  match p with
  | SPNone => false
  | SPBool b => b
  | SPList l | SPTuple l => match l with [] => false | _ => true end
  end.

(** The three token identifiers that a model's generation defaults, its
    static configuration and its tokenizer each declare (or leave [None]). *)
Record TokenIds : Type := {
  eos_token_id : pyval;
  bos_token_id : pyval;
  pad_token_id : pyval
}.

(** The contents of a memory-estimator JSON file after line 551-553: the
    popped flag (the default [False] when the key is absent) and the
    observations with their keys converted by [int]; the memory observed is
    a binary64 number. *)
Record FootprintFile : Type := {
  only_scale_with_input_size : bool;
  batch_footprint : list (Z * spec_float)
}.

(** The attributes of the result of [scipy.stats.linregress] that the
    estimator reads. *)
Record LinregressResult : Type := {
  slope : spec_float;
  intercept : spec_float;
  rvalue : spec_float
}.

(** ** The collaborators

    Everything [HFModel] calls but does not define: the prompt template
    (engine.prompt_template), the stopping criteria (engine.stopping), the
    tokenizer and the model (transformers, torch), the estimator files on
    disk, the regression of scipy ([scipy.stats.linregress], which may raise)
    and the machine.  The outcome of a call to [model.generate] may
    depend on every effect performed before it (seeding, earlier calls,
    memory releases), so it is a function of the trace so far. *)

Record Env : Type := {
  Template : Type;
  template_mode : Template -> string;
  set_mode : Template -> string -> Template * result unit;
  get_prompt : Template -> string -> string -> string -> string -> Template * result string;
  Parser : Type;
  Criteria : Type;
  Kwargs : Type;
  TextPatternStopping :
    Z -> stopping_patterns_t -> list string -> option Parser -> Criteria;
  EXTENDED_CODE_STOP_PATTERNS : stopping_patterns_t;
  post_process_sequences :
    Tensor -> stopping_patterns_t -> list string -> option Parser -> list string;
  tokenizer_encode : string -> list Z;
  tokenizer_batch_decode : Tensor -> list string;
  model_generate :
    list event -> Tensor -> gmap string pyval -> option (list Criteria) -> Z -> Kwargs ->
    result Tensor;
  GenerationConfig_defaults : gmap string pyval;
  cuda_is_available : bool;
  virtual_memory_total : Q;
  cuda_total_memory : Q;
  load_footprint_file : string -> string -> option FootprintFile;
  linregress : list Z -> list spec_float -> result LinregressResult
}.

(** The attributes of [self] that the embedded methods read. *)
Record HFModel : Type := {
  model_generation_config : TokenIds;   (* self.model.generation_config *)
  model_config : TokenIds;              (* self.model.config *)
  tokenizer : TokenIds;                 (* self.tokenizer *)
  model_numel : Z;                      (* sum(map(torch.numel, self.model.parameters())) *)
  model_name : string;
  quantization_8bits : bool;
  quantization_4bits : bool;
  dtype : string;                       (* str(self.dtype) *)
  max_memory_footprint : Q;
  extra_eos_tokens : list string
}.

Section Embedding.

Context (env : Env).

(** The mutable state: the trace, and the prompt template object that
    [self.prompt_template] points to. *)
Record State : Type := {
  events : list event;
  prompt_template : Template env
}.

(** State and exception monad. *)
Definition M (A : Type) : Type := State -> State * result A.

Definition ret {A} (a : A) : M A := fun st => (st, Ok a).

Definition raise {A} (e : exn) : M A := fun st => (st, Raise e).

Definition bind {A B} (c : M A) (k : A -> M B) : M B :=
  fun st =>
    match c st with
    | (st', Ok a) => k a st'
    | (st', Raise e) => (st', Raise e)
    end.

Definition lift {A} (r : result A) : M A := fun st => (st, r).

Definition emit (e : event) : M unit :=
  fun st => ({| events := events st ++ [e]; prompt_template := prompt_template st |}, Ok tt).

End Embedding.

Arguments ret {env A} a.
Arguments raise {env A} e.
Arguments bind {env A B} c k.
Arguments lift {env A} r.
Arguments emit {env} e.
Arguments events {env} s.
Arguments prompt_template {env} s.
Arguments Build_State {env} events prompt_template.

Notation "'do' x <- c1 ; c2" := (bind c1 (fun x => c2))
  (at level 10, x name, c1 at level 100, c2 at level 200).
Notation "'do' ' pat <- c1 ; c2" := (bind c1 (fun x => match x with pat => c2 end))
  (at level 10, pat pattern, c1 at level 100, c2 at level 200).
Notation "c1 ;; c2" := (bind c1 (fun _ => c2))
  (at level 100, c2 at level 200, right associativity).

Section Methods.

Context {env : Env} (self : HFModel).

(** *** [format_prompt] (lines 146-185) *)

(** [self.prompt_template.mode] *)
Definition read_mode : M env string :=
  fun st => (st, Ok (template_mode env (prompt_template st))).

(** [self.prompt_template.set_mode(mode)] *)
Definition call_set_mode (mode : string) : M env unit :=
  fun st =>
    let (t, r) := set_mode env (prompt_template st) mode in
    ({| events := events st; prompt_template := t |}, r).

(** [self.prompt_template.get_prompt(prompt, model_context=..., suffix=...,
    system_prompt=...)] *)
Definition call_get_prompt (prompt model_context suffix system_prompt : string)
  : M env string :=
  fun st =>
    let (t, r) := get_prompt env (prompt_template st) prompt model_context suffix system_prompt in
    ({| events := events st; prompt_template := t |}, r).

Definition format_prompt (prompt model_context infill_suffix system_prompt
                          prompt_template_mode : string) : M env string :=
  do old_mode <- read_mode;
  call_set_mode prompt_template_mode;;
  do formatted_prompt <- call_get_prompt prompt model_context infill_suffix system_prompt;
  call_set_mode old_mode;;
  ret formatted_prompt.

(** *** [create_stopping_criteria] (lines 188-233)

    [StoppingCriteriaList([c])] is the one-element list [[c]]. *)
Definition create_stopping_criteria (input_length : Z)
    (stopping_patterns : stopping_patterns_t) (parser : option (Parser env))
  : option (list (Criteria env)) * stopping_patterns_t :=
  if isinstance_list stopping_patterns || isinstance_tuple stopping_patterns then
    let stopping_criteria :=
      TextPatternStopping env input_length stopping_patterns (extra_eos_tokens self) parser in
    (Some [stopping_criteria], stopping_patterns)
  else if isinstance_bool stopping_patterns && truthy_patterns stopping_patterns then
    let stopping_patterns := EXTENDED_CODE_STOP_PATTERNS env in
    let stopping_criteria :=
      TextPatternStopping env input_length stopping_patterns (extra_eos_tokens self) parser in
    (Some [stopping_criteria], stopping_patterns)
  else
    let stopping_patterns := SPNone in
    if (length (extra_eos_tokens self) =? 0)%nat then
      (None, stopping_patterns)
    else
      let stopping_criteria :=
        TextPatternStopping env input_length stopping_patterns (extra_eos_tokens self) parser in
      (Some [stopping_criteria], stopping_patterns).

(** *** [GenerationConfig] (transformers)

    A configuration object is its attribute dictionary.  The constructor
    starts from the class defaults and sets every keyword argument; [update]
    sets the keyword arguments that name an existing attribute and returns
    the others (the library's own validation of values is left out). *)
Definition hasattr (config : gmap string pyval) (key : string) : bool :=
  bool_decide (is_Some (config !! key)).

Definition getattr (config : gmap string pyval) (key : string) : result pyval :=
  match config !! key with
  | Some v => Ok v
  | None => Raise (AttributeError key)
  end.

Definition GenerationConfig (kwargs : list (string * pyval)) : gmap string pyval :=
  foldl (fun config kv => <[kv.1 := kv.2]> config) (GenerationConfig_defaults env) kwargs.

Fixpoint GenerationConfig_update (config : gmap string pyval) (kwargs : list (string * pyval))
  : gmap string pyval * list (string * pyval) :=
  match kwargs with
  | [] => (config, [])
  | (key, value) :: kwargs =>
      if hasattr config key then
        GenerationConfig_update (<[key := value]> config) kwargs
      else
        let (config, unused) := GenerationConfig_update config kwargs in
        (config, (key, value) :: unused)
  end.

(** *** [create_generation_config] (lines 236-318) *)

(** One of the three [if ... is not None / elif / elif] cascades; [None] here
    is the [else] branch. *)
Definition resolve_token_id (field : TokenIds -> pyval) : option pyval :=
  if is_not_None (field (model_generation_config self)) then
    Some (field (model_generation_config self))
  else if is_not_None (field (model_config self)) then
    Some (field (model_config self))
  else if is_not_None (field (tokenizer self)) then
    Some (field (tokenizer self))
  else None.

Definition create_generation_config (max_new_tokens min_new_tokens : Z) (do_sample : bool)
    (top_k top_p : pyval) (temperature : Q) : result (gmap string pyval) :=
  let do_sample := if Qeq_bool temperature 0 then false else do_sample in
  match resolve_token_id eos_token_id with
  | None => Raise (RuntimeError "Impossible to find the `eos_token_id`.")
  | Some eos_token_id =>
  match resolve_token_id bos_token_id with
  | None => Raise (RuntimeError "Impossible to find the `bos_token_id`.")
  | Some bos_token_id =>
  let pad_token_id :=
    match resolve_token_id pad_token_id with
    | Some pad_token_id => pad_token_id
    | None => eos_token_id
    end in
  let generation_config :=
    GenerationConfig [("eos_token_id", eos_token_id); ("bos_token_id", bos_token_id);
                      ("pad_token_id", pad_token_id);
                      ("max_new_tokens", PInt max_new_tokens);
                      ("min_new_tokens", PInt min_new_tokens);
                      ("do_sample", PBool do_sample)]%string in
  if do_sample then
    let (generation_config, unused) :=
      GenerationConfig_update generation_config
        [("top_k", top_k); ("top_p", top_p); ("temperature", PFloat temperature)]%string in
    if (length unused =? 0)%nat then Ok generation_config
    else Raise (AssertionError "There is a typo in some generation config parameters.")
  else Ok generation_config
  end end.

(** *** [dtype_category] (lines 92-99) *)

(** [s.split('.', 1)[1]]: what follows the first dot; [IndexError] when
    there is no dot. *)
Fixpoint after_first_dot (s : string) : result string :=
  match s with
  | EmptyString => Raise IndexError
  | String c s' => if Ascii.eqb c (Ascii.ascii_of_nat 46) then Ok s' else after_first_dot s'
  end.

Definition dtype_category : result string :=
  if quantization_4bits self then Ok "int4"%string
  else if quantization_8bits self then Ok "int8"%string
  else after_first_dot (dtype self).

(** *** [parameters_count] (lines 649-659) *)
Definition parameters_count : Q := (inject_Z (model_numel self) / 1000000000)%Q.

(** *** [infer_best_batch_size_by_heuristics] (lines 586-611)

    [int(a // b)] for a non-zero constant [b] is the floor of the quotient. *)
Definition infer_best_batch_size_by_heuristics (available_memory : Q) : Z :=
  let parameters := parameters_count in
  let batch :=
    if Qltb parameters 5 then Qfloor (available_memory / (1 # 2))
    else if Qltb parameters 10 then Qfloor (available_memory / 1)
    else if Qltb parameters 20 then Qfloor (available_memory / 2)
    else Qfloor (available_memory / 3) in
  Z.max batch 1.

(** Sorting the observations by increasing sequence length
    ([np.argsort] and the two indexings of lines 562-564). *)
Fixpoint insert_by_key (p : Z * spec_float) (l : list (Z * spec_float))
  : list (Z * spec_float) :=
  match l with
  | [] => [p]
  | q :: l' => if p.1 <=? q.1 then p :: q :: l' else q :: insert_by_key p l'
  end.

Definition sort_by_key (l : list (Z * spec_float)) : list (Z * spec_float) :=
  foldr insert_by_key [] l.

(** *** [infer_best_batch_size] (lines 520-583)

    The heuristics are given the available memory as the exact rational
    [available_memory]; the linear-fit path of lines 566-583 works on the
    binary64 number that lines 539-545 compute, [available_memory_float]. *)
Definition available_memory : Q :=
  let memory :=
    if negb (cuda_is_available env) then (virtual_memory_total env / 1073741824)%Q
    else (cuda_total_memory env / 1073741824)%Q in
  (memory * (85 # 100) - max_memory_footprint self)%Q.

Definition available_memory_float : spec_float :=
  let memory :=
    if negb (cuda_is_available env)
    then Float64.div (Float64.of_ratio (virtual_memory_total env)) (Float64.of_int 1073741824)
    else Float64.div (Float64.of_ratio (cuda_total_memory env)) (Float64.of_int 1073741824) in
  Float64.sub (Float64.mul memory (Float64.of_ratio (85 # 100)))
    (Float64.of_ratio (max_memory_footprint self)).

(** [fit.rvalue**2] is taken as the rounded product of [fit.rvalue] with
    itself; a NaN fails the test [r2 >= 0.95] like any value below the
    threshold. *)
Definition infer_best_batch_size (input_size max_new_tokens num_return_sequences : Z)
  : result Z :=
  let available_memory := available_memory in
  match dtype_category with
  | Raise e => Raise e
  | Ok category =>
  match load_footprint_file env (model_name self) category with
  | None => Ok (infer_best_batch_size_by_heuristics available_memory)
  | Some file =>
      let only_scale_with_input_size := only_scale_with_input_size file in
      let sorted := sort_by_key (batch_footprint file) in
      let x := map fst sorted in
      let y := map snd sorted in
      match linregress env x y with
      | Raise e => Raise e
      | Ok fit =>
          let intercept := intercept fit in
          let slope := slope fit in
          let r2 := Float64.mul (rvalue fit) (rvalue fit) in
          let sequence_length :=
            if only_scale_with_input_size then input_size else input_size + max_new_tokens in
          if SFleb (Float64.of_ratio (95 # 100)) r2 then
            let memory_needed :=
              Float64.add intercept (Float64.mul slope (Float64.of_int sequence_length)) in
            Float64.to_int (Float64.floor_divide available_memory_float memory_needed)
          else Ok (infer_best_batch_size_by_heuristics available_memory)
      end
  end
  end.

(** *** [oom_safe_batch_generation] (lines 614-646) *)

(** [self.model.generate(input, generation_config=..., stopping_criteria=...,
    num_return_sequences=n, **kwargs)] *)
Definition call_generate (input : Tensor) (generation_config : gmap string pyval)
    (stopping_criteria : option (list (Criteria env))) (n : Z) (kwargs : Kwargs env)
  : M env Tensor :=
  fun st =>
    ({| events := events st ++ [Generate n]; prompt_template := prompt_template st |},
     model_generate env (events st) input generation_config stopping_criteria n kwargs).

(** [max(1, math.floor(batch_size*0.8))].  The product is taken exactly; the
    binary64 product has the same floor for every batch size below 2^50. *)
Definition new_batch_size (batch_size : Z) : Z :=
  Z.max 1 (Qfloor (inject_Z batch_size * (8 # 10))).

(** The method is recursive; [fuel] bounds the depth of the recursion and
    [None] means that the bound was reached. *)
Fixpoint oom_safe_batch_generation_fuel (fuel : nat) (input : Tensor)
    (generation_config : gmap string pyval)
    (stopping_criteria : option (list (Criteria env))) (batch_size : Z)
    (kwargs : Kwargs env) (st : State env)
  : option (State env * result (Tensor * Z)) :=
  match fuel with
  | O => None
  | S fuel =>
      match call_generate input generation_config stopping_criteria batch_size kwargs st with
      | (st, Ok out) => Some (st, Ok (out, batch_size))
      | (st, Raise e) =>
          if isinstance_RuntimeError e then
            if isinstance_OutOfMemoryError e then
              (* retry = True *)
              if batch_size =? 1 then
                Some (st, Raise (RuntimeError
                  "Even a batch size of 1 causes an OOM. Cannot generate with current config."))
              else
                let new_batch_size := new_batch_size batch_size in
                match (emit (Warn (ReducingBatchSize batch_size new_batch_size));;
                       emit GcCollect;;
                       emit EmptyCache) st with
                | (st, _) =>
                    oom_safe_batch_generation_fuel fuel input generation_config
                      stopping_criteria new_batch_size kwargs st
                end
            else Some (st, Raise e)
          else Some (st, Raise e)
      end
  end.

(** A depth that the recursion never exceeds (see [oom_safe_fuel_enough]). *)
Definition oom_safe_depth (batch_size : Z) : nat := Z.to_nat batch_size + 2.

Definition oom_safe_batch_generation (input : Tensor)
    (generation_config : gmap string pyval)
    (stopping_criteria : option (list (Criteria env))) (batch_size : Z)
    (kwargs : Kwargs env) : M env (Tensor * Z) :=
  fun st =>
    match oom_safe_batch_generation_fuel (oom_safe_depth batch_size) input generation_config
            stopping_criteria batch_size kwargs st with
    | Some r => r
    | None => (st, Raise (OtherException "RecursionError"))
    end.

(** The batch sizes that a trace shows were passed to [model.generate]. *)
Definition attempts (tr : list event) : list Z :=
  omap (fun e => match e with Generate n => Some n | _ => None end) tr.

(** *** [generate_text] (lines 321-512) *)

(** [[batch_size] * k]: list repetition; a non-positive count gives []. *)
Definition replicate_py (x : Z) (k : Z) : list Z := repeat x (Z.to_nat k).

(** The batch plan, lines 470-477.  [//] and [%] on integers are floor
    division and its modulus, which is what [Z.div] and [Z.modulo] compute;
    both raise on a zero divisor. *)
Definition batch_plan (num_return_sequences batch_size : Z) : result (list Z) :=
  if num_return_sequences >? batch_size then
    if batch_size =? 0 then Raise ZeroDivisionError
    else
      let batch_sizes := replicate_py batch_size (num_return_sequences / batch_size) in
      let remainder := num_return_sequences mod batch_size in
      let batch_sizes :=
        if negb (remainder =? 0) then batch_sizes ++ [remainder] else batch_sizes in
      if sum batch_sizes =? num_return_sequences then Ok batch_sizes
      else Raise (AssertionError "")
  else Ok [num_return_sequences].

(** The value returned: [str | list[str]]. *)
Inductive generated : Type :=
| Str (s : string)
| StrList (l : list string).

(** The loop of lines 481-506, from index [i] on. *)
Fixpoint generation_loop (i : nat) (batch_sizes : list Z) (first_output input : Tensor)
    (input_length : nat) (generation_config : gmap string pyval)
    (stopping_criteria : option (list (Criteria env)))
    (stopping_patterns : stopping_patterns_t) (parser : option (Parser env))
    (truncate_prompt_from_output post_process_output : bool) (original_prompt : string)
    (kwargs : Kwargs env) (generated_text : list string) : M env (list string) :=
  match batch_sizes with
  | [] => ret generated_text
  | size :: rest =>
      do outputs <-
        (if (i =? 0)%nat then ret first_output
         else call_generate input generation_config stopping_criteria size kwargs);
      let truncated_outputs := map (drop input_length) outputs in
      let generated_batch :=
        if post_process_output then
          post_process_sequences env truncated_outputs stopping_patterns
            (extra_eos_tokens self) parser
        else tokenizer_batch_decode env truncated_outputs in
      let generated_batch :=
        if negb truncate_prompt_from_output then
          map (fun sequence => (original_prompt ++ sequence)%string) generated_batch
        else generated_batch in
      generation_loop (S i) rest first_output input input_length generation_config
        stopping_criteria stopping_patterns parser truncate_prompt_from_output
        post_process_output original_prompt kwargs (generated_text ++ generated_batch)
  end.

(** Lines 431-512: what [generate_text] does once the generation config and
    the number of sequences are fixed. *)
Definition generate_text_body (generation_config : gmap string pyval)
    (num_return_sequences : Z)
    (prompt model_context infill_suffix system_prompt prompt_template_mode : string)
    (max_new_tokens : Z) (batch_size : option Z)
    (stopping_patterns : stopping_patterns_t) (parser : option (Parser env))
    (truncate_prompt_from_output post_process_output : bool) (kwargs : Kwargs env)
  : M env generated :=
  do formatted_prompt <-
    format_prompt prompt model_context infill_suffix system_prompt prompt_template_mode;
  let original_prompt :=
    if String.eqb infill_suffix "" && String.eqb system_prompt "" then
      (prompt ++ model_context)%string
    else formatted_prompt in
  let input := [tokenizer_encode env formatted_prompt] in
  let input_length := length (tokenizer_encode env formatted_prompt) in
  let '(stopping_criteria, stopping_patterns) :=
    create_stopping_criteria (Z.of_nat input_length) stopping_patterns parser in
  do batch_size <-
    match batch_size with
    | None => lift (infer_best_batch_size (Z.of_nat input_length) max_new_tokens
                      num_return_sequences)
    | Some batch_size => ret batch_size
    end;
  let batch_size := Z.min batch_size num_return_sequences in
  do ' (first_output, batch_size) <-
    oom_safe_batch_generation input generation_config stopping_criteria batch_size kwargs;
  do batch_sizes <- lift (batch_plan num_return_sequences batch_size);
  do generated_text <-
    generation_loop 0 batch_sizes first_output input input_length generation_config
      stopping_criteria stopping_patterns parser truncate_prompt_from_output
      post_process_output original_prompt kwargs [];
  if num_return_sequences =? 1 then
    match generated_text with
    | [] => raise IndexError
    | s :: _ => ret (Str s)
    end
  else ret (StrList generated_text).

Definition generate_text
    (prompt model_context infill_suffix system_prompt prompt_template_mode : string)
    (max_new_tokens min_new_tokens : Z) (do_sample : bool) (top_k top_p : pyval)
    (temperature : Q) (num_return_sequences : Z) (batch_size seed : option Z)
    (stopping_patterns : stopping_patterns_t) (parser : option (Parser env))
    (truncate_prompt_from_output post_process_output : bool) (kwargs : Kwargs env)
  : M env generated :=
  match seed with
  | Some seed => emit (SetAllSeeds seed)
  | None => ret tt
  end;;
  do generation_config <-
    lift (create_generation_config max_new_tokens min_new_tokens do_sample top_k top_p
            temperature);
  do num_return_sequences <-
    (if num_return_sequences >? 1 then
       do sampling <- lift (getattr generation_config "do_sample");
       if negb (truthy sampling) then
         emit (Warn GreedyMultipleSequences);;
         ret 1
       else ret num_return_sequences
     else ret num_return_sequences);
  generate_text_body generation_config num_return_sequences prompt model_context
    infill_suffix system_prompt prompt_template_mode max_new_tokens batch_size
    stopping_patterns parser truncate_prompt_from_output post_process_output kwargs.

End Methods.

(** ** Vocabulary of the statements *)

(** What a setter has to do: when [set_mode] returns, the mode of the
    template is the one that was passed. *)
Definition set_mode_sets (env : Env) : Prop :=
  forall (t t' : Template env) (mode : string),
    set_mode env t mode = (t', Ok tt) -> template_mode env t' = mode.

(** An identifier is missing from the model's generation defaults, from its
    static configuration and from the tokenizer. *)
Definition missing_everywhere (self : HFModel) (field : TokenIds -> pyval) : Prop :=
  field (model_generation_config self) = PNone
  /\ field (model_config self) = PNone
  /\ field (tokenizer self) = PNone.

(** The first value of a list that is not [None]. *)
Definition first_not_None (l : list pyval) : option pyval := List.find is_not_None l.

(** The three sources of an identifier, in the order they are consulted. *)
Definition sources (self : HFModel) (field : TokenIds -> pyval) : list pyval :=
  [field (model_generation_config self); field (model_config self); field (tokenizer self)].

(** The names of the sampling hyperparameters. *)
Definition sampling_names : list string := ["top_k"; "top_p"; "temperature"]%string.

(** The keyword arguments of the two library calls of
    [create_generation_config]. *)
Definition init_kwargs (eos bos pad : pyval) (max_new min_new : Z) (sampling : bool)
  : list (string * pyval) :=
  [("eos_token_id", eos); ("bos_token_id", bos); ("pad_token_id", pad);
   ("max_new_tokens", PInt max_new); ("min_new_tokens", PInt min_new);
   ("do_sample", PBool sampling)]%string.

Definition sampling_kwargs (top_k top_p : pyval) (temperature : Q)
  : list (string * pyval) :=
  [("top_k", top_k); ("top_p", top_p); ("temperature", PFloat temperature)]%string.

(** The sampling flag after line 270-272. *)
Definition sampling_enabled (do_sample : bool) (temperature : Q) : bool :=
  if Qeq_bool temperature 0 then false else do_sample.

(** The state after a trace has grown by the events [evs]. *)
Definition after {env : Env} (st : State env) (evs : list event) : State env :=
  {| events := events st ++ evs; prompt_template := prompt_template st |}.

(** Enough fuel for a batch size: one call at size 1, otherwise the depth
    bound of [oom_safe_depth]. *)
Definition enough (fuel : nat) (b : Z) : Prop :=
  (1 <= fuel)%nat /\ (b <> 1 -> (Z.to_nat b + 2 <= fuel)%nat).

(** The events of the seeding step of [generate_text]. *)
Definition seeding (seed : option Z) : list event :=
  match seed with Some seed => [SetAllSeeds seed] | None => [] end.

(** The sizes that [oom_safe_batch_generation] tries, one after the other,
    when every attempt runs out of memory. *)
Fixpoint oom_chain (fuel : nat) (batch_size : Z) : list Z :=
  match fuel with
  | O => []
  | S fuel =>
      batch_size ::
      (if batch_size =? 1 then [] else oom_chain fuel (new_batch_size batch_size))
  end.

(** Every call to the model runs out of memory. *)
Definition always_out_of_memory (env : Env) : Prop :=
  forall tr input config criteria n kwargs,
    model_generate env tr input config criteria n kwargs = Raise OutOfMemoryError.

(** A list of integers in which each entry is smaller than the one before. *)
Fixpoint strictly_decreasing (l : list Z) : Prop :=
  match l with
  | a :: (b :: _) as rest => b < a /\ strictly_decreasing rest
  | _ => True
  end.

(** ** A concrete set of collaborators

    A small executable instance of [Env], used to run the embedded methods:
    the prompt template is just its mode, the model produces [n] copies of
    the prompt followed by one token as long as [n] does not exceed the
    capacity of the device, and runs out of memory above it. *)
Module Demo.

Definition generate_with_capacity (capacity : Z) (input : Tensor) (n : Z) : result Tensor :=
  if n >? capacity then Raise OutOfMemoryError
  else Ok (repeat (concat input ++ [7]) (Z.to_nat n)).

Definition defaults : gmap string pyval :=
  list_to_map [("max_new_tokens", PNone); ("min_new_tokens", PNone);
               ("do_sample", PBool false); ("temperature", PFloat 1);
               ("top_k", PInt 50); ("top_p", PFloat 1);
               ("eos_token_id", PNone); ("bos_token_id", PNone);
               ("pad_token_id", PNone)]%string.

Definition calibration : FootprintFile :=
  {| only_scale_with_input_size := false;
     batch_footprint := [(10, Float64.of_int 2); (20, Float64.of_int 4)] |}.

(** A least-squares regression in binary64, standing for the one of scipy:
    the means, the biased covariances, the correlation coefficient (0 when a
    variance is 0), the slope and the intercept.  On an empty table every
    mean is [0 / 0], a NaN, and so is the whole fit. *)
Definition total (l : list spec_float) : spec_float := foldl Float64.add Float64.zero l.

Definition mean (l : list spec_float) : spec_float :=
  Float64.div (total l) (Float64.of_int (Z.of_nat (length l))).

Definition cov (x y : list spec_float) : spec_float :=
  let xmean := mean x in
  let ymean := mean y in
  mean (zip_with (fun a b => Float64.mul (Float64.sub a xmean) (Float64.sub b ymean)) x y).

Definition least_squares (x : list Z) (y : list spec_float) : result LinregressResult :=
  let x := map Float64.of_int x in
  let ssxm := cov x x in
  let ssxym := cov x y in
  let ssym := cov y y in
  let r :=
    if Float64.is_zero ssxm || Float64.is_zero ssym then Float64.zero
    else Float64.div ssxym (SFsqrt Float64.prec Float64.emax (Float64.mul ssxm ssym)) in
  let slope := Float64.div ssxym ssxm in
  Ok {| slope := slope;
        intercept := Float64.sub (mean y) (Float64.mul slope (mean x));
        rvalue := r |}.

(** The fit of the calibration table, the only table these collaborators
    serve: 0.2 GiB per token, through the origin, with a correlation
    coefficient of 1 (see [calibration_fit_least_squares]). *)
Definition calibration_fit : LinregressResult :=
  {| slope := Float64.of_ratio (1 # 5);
     intercept := Float64.zero;
     rvalue := Float64.one |}.

Definition env_of (generate : Tensor -> Z -> result Tensor)
    (class_defaults : gmap string pyval) (memory_bytes : Q) : Env :=
  {| Template := string;
     template_mode := fun t => t;
     set_mode := fun _ mode => (mode, Ok tt);
     get_prompt := fun t prompt model_context _ _ => (t, Ok (prompt ++ model_context)%string);
     Parser := unit;
     Criteria := stopping_patterns_t;
     Kwargs := unit;
     TextPatternStopping := fun _ patterns _ _ => patterns;
     EXTENDED_CODE_STOP_PATTERNS := SPTuple ["\n\n"%string];
     post_process_sequences := fun outputs _ _ _ => map (fun _ => "text"%string) outputs;
     tokenizer_encode := fun s => [1; 2; 3];
     tokenizer_batch_decode := fun outputs => map (fun _ => "raw"%string) outputs;
     model_generate := fun _ input _ _ n _ => generate input n;
     GenerationConfig_defaults := class_defaults;
     cuda_is_available := false;
     virtual_memory_total := memory_bytes;
     cuda_total_memory := 0%Q;
     load_footprint_file := fun name _ =>
       if String.eqb name "calibrated" then Some calibration else None;
     linregress := fun _ _ => Ok calibration_fit |}.

Definition env_with (class_defaults : gmap string pyval) (capacity : Z) (memory_bytes : Q)
  : Env :=
  env_of (generate_with_capacity capacity) class_defaults memory_bytes.

(** A device on which every call runs out of memory. *)
Definition env_exhausted : Env :=
  env_of (fun _ _ => Raise OutOfMemoryError) defaults 0.

Definition env (capacity : Z) (memory_bytes : Q) : Env :=
  env_with defaults capacity memory_bytes.

(** [n] GiB in bytes. *)
Definition GiB (n : Z) : Q := inject_Z (n * 1073741824).

Definition ids (eos bos pad : pyval) : TokenIds :=
  {| eos_token_id := eos; bos_token_id := bos; pad_token_id := pad |}.

Definition no_ids : TokenIds := ids PNone PNone PNone.

(** A model of [billions] billion parameters that occupies [footprint] GiB. *)
Definition model (name : string) (billions : Z) (footprint : Q) : HFModel :=
  {| model_generation_config := ids (PInt 2) (PInt 1) PNone;
     model_config := no_ids;
     tokenizer := no_ids;
     model_numel := billions * 1000000000;
     model_name := name;
     quantization_8bits := false;
     quantization_4bits := false;
     dtype := "torch.float16";
     max_memory_footprint := footprint;
     extra_eos_tokens := [] |}.

Definition start (capacity : Z) (memory_bytes : Q) : State (env capacity memory_bytes) :=
  @Build_State (env capacity memory_bytes) [] "generation"%string.

Definition start_exhausted : State env_exhausted :=
  @Build_State env_exhausted [] "generation"%string.

End Demo.

(** ** Vocabulary of the further properties *)

(** The memory that the heuristics assume one sequence takes, in GiB: the
    divisor of the branch of lines 602-609 that a parameter count selects. *)
Definition heuristic_unit (parameters : Q) : Q :=
  if Qltb parameters 5 then 1 # 2
  else if Qltb parameters 10 then 1
  else if Qltb parameters 20 then 2
  else 3.

(** The events of one failed attempt at a batch size that is then reduced. *)
Definition retry_block (batch_size : Z) : list event :=
  [Generate batch_size; Warn (ReducingBatchSize batch_size (new_batch_size batch_size));
   GcCollect; EmptyCache].

(** The character [.] *)
Definition dot : Ascii.ascii := Ascii.ascii_of_nat 46.

(** A string contains a dot. *)
Fixpoint has_dot (s : string) : Prop :=
  match s with
  | EmptyString => False
  | String c s' => c = dot \/ has_dot s'
  end.

(** Consecutive entries of a list of batch sizes are related by the
    reduction of line 638. *)
Fixpoint reductions (l : list Z) : Prop :=
  match l with
  | a :: (b :: _) as rest => b = new_batch_size a /\ reductions rest
  | _ => True
  end.

(** Lines 425-429: whether the request is collapsed to one sequence, the
    number of sequences that is generated, and the warning that goes with
    the collapse. *)
Definition collapses (do_sample : bool) (temperature : Q) (num_return_sequences : Z) : bool :=
  (num_return_sequences >? 1) && negb (sampling_enabled do_sample temperature).

Definition effective_count (do_sample : bool) (temperature : Q) (num_return_sequences : Z)
  : Z :=
  if collapses do_sample temperature num_return_sequences then 1 else num_return_sequences.

Definition advisory (do_sample : bool) (temperature : Q) (num_return_sequences : Z)
  : list event :=
  if collapses do_sample temperature num_return_sequences
  then [Warn GreedyMultipleSequences] else [].

(** What the collaborators are expected to return: a successful call to
    the model for [n] sequences gives [n] rows, and decoding gives one text
    per row. *)
Definition generate_rows (env : Env) : Prop :=
  forall tr input config criteria n kwargs out,
    model_generate env tr input config criteria n kwargs = Ok out ->
    length out = Z.to_nat n.

Definition decode_rows (env : Env) : Prop :=
  (forall outputs patterns extra parser,
     length (post_process_sequences env outputs patterns extra parser) = length outputs)
  /\ (forall outputs, length (tokenizer_batch_decode env outputs) = length outputs).

(** A model whose tokenizer and configurations declare no identifier. *)
Definition model_without_ids : HFModel :=
  {| model_generation_config := Demo.no_ids;
     model_config := Demo.no_ids;
     tokenizer := Demo.no_ids;
     model_numel := 7000000000;
     model_name := "bare";
     quantization_8bits := false;
     quantization_4bits := false;
     dtype := "torch.float16";
     max_memory_footprint := 7;
     extra_eos_tokens := [] |}.

(** The concrete collaborators with a given calibration file for every
    model, on a machine with [memory_bytes] of memory. *)
Definition table_env (file : FootprintFile) (memory_bytes : Q) : Env :=
  {| Template := string;
     template_mode := fun t => t;
     set_mode := fun _ mode => (mode, Ok tt);
     get_prompt := fun t prompt model_context _ _ => (t, Ok (prompt ++ model_context)%string);
     Parser := unit;
     Criteria := stopping_patterns_t;
     Kwargs := unit;
     TextPatternStopping := fun _ patterns _ _ => patterns;
     EXTENDED_CODE_STOP_PATTERNS := SPTuple ["\n\n"%string];
     post_process_sequences := fun outputs _ _ _ => map (fun _ => "text"%string) outputs;
     tokenizer_encode := fun s => [1; 2; 3];
     tokenizer_batch_decode := fun outputs => map (fun _ => "raw"%string) outputs;
     model_generate := fun _ input _ _ n _ => Demo.generate_with_capacity 7 input n;
     GenerationConfig_defaults := Demo.defaults;
     cuda_is_available := true;
     virtual_memory_total := 0%Q;
     cuda_total_memory := memory_bytes;
     load_footprint_file := fun _ _ => Some file;
     linregress := Demo.least_squares |}.

(** ** Conversations

    [GenericConversation] and [get_conversation_template]
    (engine.conversation_template) are collaborators.  A conversation is a
    mutable object: each method gives the object after the call together
    with the outcome of the call. *)
Record ConversationClass : Type := {
  Conversation : Type;
  get_conversation_template : string -> result Conversation;
  set_system_prompt : Conversation -> string -> Conversation * result unit;
  append_user_message : Conversation -> string -> Conversation * result unit;
  conversation_get_prompt : Conversation -> Conversation * result string;
  append_model_message : Conversation -> string -> Conversation * result unit
}.

Section ConversationMethods.

Context {env : Env} (conv : ConversationClass) (self : HFModel).

(** *** [get_empty_conversation] (lines 771-773) *)
Definition get_empty_conversation : result (Conversation conv) :=
  get_conversation_template conv (model_name self).

(** *** [generate_conversation] (lines 667-768)

    The call gives the state after it, the conversation object that it worked
    on as the call left it ([None] when the caller passed none and the call
    stopped before creating one), and its outcome; the conversation returned
    is the very object that was worked on.  [truncate_if_conv_too_long] is
    accepted and never read. *)
Definition generate_conversation (prompt system_prompt : string)
    (conv_history : option (Conversation conv)) (max_new_tokens min_new_tokens : Z)
    (do_sample : bool) (top_k top_p : pyval) (temperature : Q) (seed : option Z)
    (truncate_if_conv_too_long : bool) (kwargs : Kwargs env) (st : State env)
  : State env * option (Conversation conv) * result (Conversation conv) :=
  let st :=
    (match seed with
     | Some seed => emit (SetAllSeeds seed)
     | None => ret tt
     end st).1 in
  match create_generation_config (env := env) self max_new_tokens min_new_tokens do_sample
          top_k top_p temperature with
  | Raise e => (st, conv_history, Raise e)
  | Ok generation_config =>
  match (match conv_history with
         | None => get_empty_conversation
         | Some conv_history => Ok conv_history
         end) with
  | Raise e => (st, None, Raise e)
  | Ok conv_history =>
  match set_system_prompt conv conv_history system_prompt with
  | (conv_history, Raise e) => (st, Some conv_history, Raise e)
  | (conv_history, Ok _) =>
  match append_user_message conv conv_history prompt with
  | (conv_history, Raise e) => (st, Some conv_history, Raise e)
  | (conv_history, Ok _) =>
  match conversation_get_prompt conv conv_history with
  | (conv_history, Raise e) => (st, Some conv_history, Raise e)
  | (conv_history, Ok full_prompt) =>
      let input := [tokenizer_encode env full_prompt] in
      let input_length := length (tokenizer_encode env full_prompt) in
      let stopping_criteria :=
        (create_stopping_criteria self (Z.of_nat input_length) SPNone None).1 in
      match call_generate input generation_config stopping_criteria 1 kwargs st with
      | (st, Raise e) => (st, Some conv_history, Raise e)
      | (st, Ok outputs) =>
          let truncated_outputs := map (drop input_length) outputs in
          let response :=
            post_process_sequences env truncated_outputs SPNone (extra_eos_tokens self) None in
          match response with
          | [] => (st, Some conv_history, Raise IndexError)
          | first :: _ =>
              match append_model_message conv conv_history first with
              | (conv_history, Raise e) => (st, Some conv_history, Raise e)
              | (conv_history, Ok _) => (st, Some conv_history, Ok conv_history)
              end
          end
      end
  end
  end
  end
  end
  end.

End ConversationMethods.

(** A concrete conversation class: the system prompt and the messages in
    the order they were appended, each with its author. *)
Inductive author : Type := User | Model.

Definition Dialogue : Type := string * list (author * string).

Definition dialogue_class : ConversationClass :=
  {| Conversation := Dialogue;
     get_conversation_template := fun _ => Ok (""%string, []);
     set_system_prompt := fun c system_prompt => ((system_prompt, c.2), Ok tt);
     append_user_message := fun c message => ((c.1, c.2 ++ [(User, message)]), Ok tt);
     conversation_get_prompt := fun c =>
       (c, Ok (foldl (fun text m => (text ++ m.2)%string) c.1 c.2));
     append_model_message := fun c message => ((c.1, c.2 ++ [(Model, message)]), Ok tt) |}.

(** ** The memory footprint

    The part of [__init__] that measures the footprint of the loaded model
    (lines 30-33 and 43-73), and the getters that report it (lines
    116-143). *)
Module Memory.

(** A value of [hf_device_map]: the index of a GPU, ['cpu'] or ['disk']. *)
Inductive device : Type := cpu | disk | gpu (index : Z).

Definition gpu_index (d : device) : option Z :=
  match d with gpu index => Some index | _ => None end.

(** What [__init__] reads from the machine and from the loaded model. *)
Record Loaded : Type := {
  is_available : bool;               (* torch.cuda.is_available() *)
  device_count : Z;                  (* torch.cuda.device_count() *)
  memory_allocated_before : Z -> Z;  (* torch.cuda.memory_allocated(i), line 33 *)
  memory_allocated : Z -> Z;         (* torch.cuda.memory_allocated(i), after loading *)
  hf_device_map : option (list (string * device));  (* self.model.hf_device_map, if any *)
  get_device : Z;                    (* next(self.model.parameters()).get_device() *)
  model_get_memory_footprint : Z     (* self.model.get_memory_footprint() *)
}.

(** The attributes that this part of [__init__] sets; the input device
    ['cpu'] is [None]. *)
Record Attributes : Type := {
  gpu_memory_map : gmap Z Q;
  input_device : option Z;
  max_memory_footprint : Q
}.

(** Lines 30-33: the dictionary exists only when CUDA is available. *)
Definition reference_memory (m : Loaded) : option (gmap Z Z) :=
  if is_available m then
    Some (foldl (fun reference i => <[i := memory_allocated_before m i]> reference) ∅
            (seqZ 0 (device_count m)))
  else None.

(** [(torch.cuda.memory_allocated(device) - reference_memory[device]) / 1024**3] *)
Definition allocated_by_loading (m : Loaded) (device : Z) : result Q :=
  match reference_memory m with
  | None => Raise (OtherException "NameError")
  | Some reference =>
      match reference !! device with
      | None => Raise (OtherException "KeyError")
      | Some before =>
          Ok (inject_Z (memory_allocated m device - before) / inject_Z 1073741824)%Q
      end
  end.

(** The loop of lines 55-56. *)
Fixpoint measure (m : Loaded) (gpu_devices : list Z) (gpu_memory_map : gmap Z Q)
  : result (gmap Z Q) :=
  match gpu_devices with
  | [] => Ok gpu_memory_map
  | device :: rest =>
      match allocated_by_loading m device with
      | Raise e => Raise e
      | Ok footprint => measure m rest (<[device := footprint]> gpu_memory_map)
      end
  end.

(** [max] of a sequence that starts with [first]: the first of its largest
    values. *)
Definition py_max (first : Q) (rest : list Q) : Q :=
  foldl (fun best v => if Qltb best v then v else best) first rest.

(** Lines 69-73. *)
Definition footprint_attributes (m : Loaded) (gpu_memory_map : gmap Z Q)
    (input_device : option Z) : Attributes :=
  {| gpu_memory_map := gpu_memory_map;
     input_device := input_device;
     max_memory_footprint :=
       match (map_to_list gpu_memory_map).*2 with
       | first :: rest => py_max first rest
       | [] => (inject_Z (model_get_memory_footprint m) / inject_Z 1073741824)%Q
       end |}.

(** The set [gpu_devices] of lines 49-51 is kept as the list of the GPU
    indices in the device map: neither [min] nor the assignments of the loop
    see the repetitions. *)
Definition init (m : Loaded) : result Attributes :=
  match hf_device_map m with
  | Some device_map =>
      let gpu_devices := omap gpu_index device_map.*2 in
      let input_device :=
        match gpu_devices with
        | first :: rest => Some (foldl Z.min first rest)
        | [] => None
        end in
      match measure m gpu_devices ∅ with
      | Raise e => Raise e
      | Ok gpu_memory_map => Ok (footprint_attributes m gpu_memory_map input_device)
      end
  | None =>
      let device := get_device m in
      let input_device := if device =? -1 then None else Some device in
      if negb (device =? -1) then
        match allocated_by_loading m device with
        | Raise e => Raise e
        | Ok footprint =>
            Ok (footprint_attributes m (<[device := footprint]> ∅) input_device)
        end
      else Ok (footprint_attributes m ∅ input_device)
  end.

(** [copy.deepcopy(self.gpu_memory_map)] *)
Definition get_gpu_memory_footprint (self : Attributes) : gmap Z Q := gpu_memory_map self.

(** The dictionary returned, as its items. *)
Definition get_memory_footprint (self : Attributes) : list (device * Q) :=
  let gpu_footprint := get_gpu_memory_footprint self in
  if (size gpu_footprint =? 0)%nat then [(cpu, max_memory_footprint self)]
  else map (fun item => (gpu item.1, item.2)) (map_to_list gpu_footprint).

Definition get_max_device_memory_footprint (self : Attributes) : Q :=
  max_memory_footprint self.

(** [tuple(sorted(self.gpu_memory_map.keys()))] *)
Definition get_gpu_devices (self : Attributes) : list Z :=
  merge_sort Z.le (map_to_list (gpu_memory_map self)).*1.

End Memory.

(** ** Vocabulary of the memory footprint *)

(** The GPUs that hold a part of the loaded model: the GPU indices of the
    device map, or the device of the parameters when it is not the CPU. *)
Definition gpus_used (m : Memory.Loaded) : list Z :=
  match Memory.hf_device_map m with
  | Some device_map => omap Memory.gpu_index device_map.*2
  | None => if Memory.get_device m =? -1 then [] else [Memory.get_device m]
  end.

(** The memory of a GPU was recorded before the loading. *)
Definition recorded (m : Memory.Loaded) (device : Z) : Prop :=
  Memory.is_available m = true /\ 0 <= device < Memory.device_count m.

(** What the loading allocated on a GPU, in GiB. *)
Definition loaded_on (m : Memory.Loaded) (device : Z) : Q :=
  (inject_Z (Memory.memory_allocated m device - Memory.memory_allocated_before m device)
   / inject_Z 1073741824)%Q.

(** A model spread over the two GPUs of a machine and its CPU: the loading
    allocates 3 GiB on the first GPU and 5 GiB on the second. *)
Definition two_gpus : Memory.Loaded :=
  {| Memory.is_available := true;
     Memory.device_count := 2;
     Memory.memory_allocated_before := fun _ => 1073741824;
     Memory.memory_allocated := fun i => (if i =? 0 then 4 else 6) * 1073741824;
     Memory.hf_device_map :=
       Some [("embed_tokens"%string, Memory.gpu 1); ("layers"%string, Memory.gpu 0);
             ("norm"%string, Memory.gpu 1); ("lm_head"%string, Memory.cpu)];
     Memory.get_device := 1;
     Memory.model_get_memory_footprint := 9 * 1073741824 |}.

(** Collaborators whose prompt template has no chat format: building a
    prompt in the mode [chat] raises. *)
Definition env_without_chat : Env :=
  {| Template := string;
     template_mode := fun t => t;
     set_mode := fun _ mode => (mode, Ok tt);
     get_prompt := fun t prompt model_context _ _ =>
       if String.eqb t "chat" then (t, Raise (ValueError "no chat format"))
       else (t, Ok (prompt ++ model_context)%string);
     Parser := unit;
     Criteria := stopping_patterns_t;
     Kwargs := unit;
     TextPatternStopping := fun _ patterns _ _ => patterns;
     EXTENDED_CODE_STOP_PATTERNS := SPTuple ["\n\n"%string];
     post_process_sequences := fun outputs _ _ _ => map (fun _ => "text"%string) outputs;
     tokenizer_encode := fun s => [1; 2; 3];
     tokenizer_batch_decode := fun outputs => map (fun _ => "raw"%string) outputs;
     model_generate := fun _ input _ _ n _ => Demo.generate_with_capacity 7 input n;
     GenerationConfig_defaults := Demo.defaults;
     cuda_is_available := false;
     virtual_memory_total := 0%Q;
     cuda_total_memory := 0%Q;
     load_footprint_file := fun _ _ => None;
     linregress := fun _ _ => Ok Demo.calibration_fit |}.

(** A calibration table that no line fits. *)
Definition scattered : FootprintFile :=
  {| only_scale_with_input_size := false;
     batch_footprint :=
       [(10, Float64.of_int 1); (20, Float64.of_int 5); (30, Float64.of_int 2)] |}.

(** * Properties *)

(** ** The batch plan *)

Section BatchPlanFacts.

Lemma sum_app (l1 l2 : list Z) : sum (l1 ++ l2) = sum l1 + sum l2.
Proof. induction l1 as [|x l1 IH]; simpl; [reflexivity | rewrite IH; lia]. Qed.

Lemma sum_repeat (x : Z) (n : nat) : sum (repeat x n) = Z.of_nat n * x.
Proof.
  induction n as [|n IH]; [reflexivity|].
  change (x + sum (repeat x n) = Z.of_nat (S n) * x). rewrite IH. lia.
Qed.

Lemma sum_replicate_py (x k : Z) : 0 <= k -> sum (replicate_py x k) = k * x.
Proof.
  intros Hk. unfold replicate_py.
  rewrite sum_repeat, Z2Nat.id; [reflexivity | exact Hk].
Qed.

Lemma Forall_repeat_same (x : Z) (n : nat) : Forall (fun y => y = x) (repeat x n).
Proof. induction n; simpl; constructor; auto. Qed.

Lemma replicate_py_snoc (x k : Z) :
  1 <= k -> replicate_py x k = replicate_py x (k - 1) ++ [x].
Proof.
  intros Hk. unfold replicate_py.
  replace (Z.to_nat k) with (S (Z.to_nat (k - 1))) by lia.
  simpl repeat. apply repeat_cons.
Qed.

(** The plan computed when more sequences are requested than fit a batch,
    before the assertion of line 475. *)
Lemma plan_sum_split (N B : Z) :
  1 <= B ->
  0 <= N ->
  sum (if negb (N mod B =? 0) then replicate_py B (N / B) ++ [N mod B]
       else replicate_py B (N / B)) = N.
Proof.
  intros HB HN.
  assert (Hq : 0 <= N / B) by (apply Z.div_pos; lia).
  pose proof (Z.div_mod N B ltac:(lia)) as Hdm.
  destruct (N mod B =? 0) eqn:Hr; simpl.
  - apply Z.eqb_eq in Hr. rewrite sum_replicate_py by exact Hq. lia.
  - rewrite sum_app, sum_replicate_py by exact Hq. simpl. lia.
Qed.

(** C2. For every requested count [N >= 1] and every effective batch size
    [B >= 1], the batch plan of [generate_text] is produced (the assertion of
    line 475 holds), sums exactly to [N], has every entry at most [B], and
    consists of entries equal to [B] followed by one last entry, the only one
    that may be smaller than [B]. *)
Theorem batch_plan_partition (N B : Z) :
  1 <= N ->
  1 <= B ->
  exists plan,
    batch_plan N B = Ok plan /\
    sum plan = N /\
    Forall (fun size => size <= B) plan /\
    exists full last,
      plan = full ++ [last] /\ Forall (fun size => size = B) full /\ 1 <= last <= B.
Proof.
  intros HN HB. unfold batch_plan.
  destruct (N >? B) eqn:Hgt.
  - apply Z.gtb_lt in Hgt.
    replace (B =? 0) with false by (symmetry; apply Z.eqb_neq; lia).
    pose proof (plan_sum_split N B HB ltac:(lia)) as Hsum.
    assert (Hq : 1 <= N / B) by (apply Z.div_le_lower_bound; lia).
    pose proof (Z.mod_pos_bound N B ltac:(lia)) as Hr.
    destruct (negb (N mod B =? 0)) eqn:Hrem.
    + rewrite Hsum, Z.eqb_refl.
      eexists; split; [reflexivity|].
      apply negb_true_iff, Z.eqb_neq in Hrem.
      split; [exact Hsum|]. split.
      * apply Forall_app; split.
        -- eapply Forall_impl; [apply Forall_repeat_same|]. simpl. intros; lia.
        -- constructor; [lia | constructor].
      * exists (replicate_py B (N / B)), (N mod B).
        split; [reflexivity|]. split; [apply Forall_repeat_same | lia].
    + rewrite Hsum, Z.eqb_refl.
      eexists; split; [reflexivity|].
      split; [exact Hsum|]. split.
      * eapply Forall_impl; [apply Forall_repeat_same|]. simpl. intros; lia.
      * exists (replicate_py B (N / B - 1)), B.
        split; [apply replicate_py_snoc; exact Hq|].
        split; [apply Forall_repeat_same | lia].
  - rewrite Z.gtb_ltb in Hgt. apply Z.ltb_ge in Hgt.
    eexists; split; [reflexivity|].
    split; [simpl; lia|]. split.
    + constructor; [exact Hgt | constructor].
    + exists [], N. split; [reflexivity|]. split; [constructor | lia].
Qed.

Lemma batch_plan_partition_witness :
  exists plan,
    batch_plan 20 6 = Ok plan /\
    sum plan = 20 /\
    Forall (fun size => size <= 6) plan /\
    exists full last,
      plan = full ++ [last] /\ Forall (fun size => size = 6) full /\ 1 <= last <= 6.
Proof. apply (batch_plan_partition 20 6); lia. Defined.

(** The example of the specification: 20 sequences at an effective batch
    size of 6 are generated as 6, 6, 6 and 2. *)
Example batch_plan_20_6 : batch_plan 20 6 = Ok [6; 6; 6; 2].
Proof. reflexivity. Qed.

End BatchPlanFacts.

(** ** Stopping criteria *)

Section StoppingCriteriaFacts.

Context (env : Env) (self : HFModel).

(** C10. For every input length and parser, [create_stopping_criteria]
    returns the same pair for [stopping_patterns = False] as for
    [stopping_patterns = None]: the patterns are [None] and the criteria are
    built from the extra end-of-sequence tokens alone, or are [None] when
    the model has no such tokens. *)
Theorem create_stopping_criteria_False_None
    (input_length : Z) (parser : option (Parser env)) :
  create_stopping_criteria self input_length (SPBool false) parser
  = create_stopping_criteria self input_length SPNone parser
  /\ create_stopping_criteria self input_length SPNone parser
     = (match extra_eos_tokens self with
        | [] => None
        | _ => Some [TextPatternStopping env input_length SPNone
                       (extra_eos_tokens self) parser]
        end, SPNone).
Proof.
  split; [reflexivity|].
  unfold create_stopping_criteria. simpl.
  destruct (extra_eos_tokens self); reflexivity.
Qed.

(** By contrast [True] selects the default patterns. *)
Lemma create_stopping_criteria_True (input_length : Z) (parser : option (Parser env)) :
  create_stopping_criteria self input_length (SPBool true) parser
  = (Some [TextPatternStopping env input_length (EXTENDED_CODE_STOP_PATTERNS env)
             (extra_eos_tokens self) parser],
     EXTENDED_CODE_STOP_PATTERNS env).
Proof. reflexivity. Qed.

End StoppingCriteriaFacts.

(** ** Prompt formatting *)

Section FormatPromptFacts.

Context (env : Env).

(** C9.  [format_prompt] adds nothing to the trace.  When it returns, it
    has switched the template to the requested mode, built the prompt in
    that mode and set the template back to the mode recorded on entry: the
    mode after the call is the mode before it.  When building the prompt
    raises, the error is raised as it is and the mode is not set back: the
    template is the one [get_prompt] left, in the requested mode if
    [get_prompt] does not change the mode. *)
Theorem format_prompt_restores_mode
    (prompt model_context infill_suffix system_prompt prompt_template_mode : string)
    (st : State env) :
  set_mode_sets env ->
  let run :=
    format_prompt prompt model_context infill_suffix system_prompt prompt_template_mode st in
  events run.1 = events st
  /\ (forall formatted, run.2 = Ok formatted ->
        template_mode env (prompt_template run.1) = template_mode env (prompt_template st)
        /\ exists t1 t2,
             set_mode env (prompt_template st) prompt_template_mode = (t1, Ok tt)
             /\ get_prompt env t1 prompt model_context infill_suffix system_prompt
                = (t2, Ok formatted)
             /\ set_mode env t2 (template_mode env (prompt_template st))
                = (prompt_template run.1, Ok tt))
  /\ (forall t1 t2 e,
        set_mode env (prompt_template st) prompt_template_mode = (t1, Ok tt) ->
        get_prompt env t1 prompt model_context infill_suffix system_prompt = (t2, Raise e) ->
        run.2 = Raise e
        /\ prompt_template run.1 = t2
        /\ (template_mode env t2 = template_mode env t1 ->
            template_mode env (prompt_template run.1) = prompt_template_mode)).
Proof.
  intros Hset run. subst run.
  unfold format_prompt, bind, read_mode, call_set_mode, call_get_prompt, ret.
  destruct (set_mode env (prompt_template st) prompt_template_mode) as [t1 [[]|e1]] eqn:H1;
    cbn [fst snd events prompt_template].
  2: { split; [reflexivity|]. split; [discriminate|]. intros ? ? ? H. discriminate H. }
  destruct (get_prompt env t1 prompt model_context infill_suffix system_prompt)
    as [t2 [s|e2]] eqn:H2; cbn [fst snd events prompt_template].
  - destruct (set_mode env t2 (template_mode env (prompt_template st)))
      as [t3 [[]|e3]] eqn:H3; cbn [fst snd events prompt_template].
    + split; [reflexivity|]. split.
      * intros formatted Heq. inversion Heq; subst.
        split; [exact (Hset _ _ _ H3)|]. exists t1, t2. auto.
      * intros t1' t2' e Ht1 Ht2. inversion Ht1; subst. rewrite H2 in Ht2. discriminate Ht2.
    + split; [reflexivity|]. split; [discriminate|].
      intros t1' t2' e Ht1 Ht2. inversion Ht1; subst. rewrite H2 in Ht2. discriminate Ht2.
  - split; [reflexivity|]. split; [discriminate|].
    intros t1' t2' e Ht1 Ht2. inversion Ht1; subst. rewrite H2 in Ht2. inversion Ht2; subst.
    split; [reflexivity|]. split; [reflexivity|].
    intros Hkeep. rewrite Hkeep. exact (Hset _ _ _ H1).
Qed.

End FormatPromptFacts.

Lemma format_prompt_restores_mode_witness :
  set_mode_sets (Demo.env 8 0)
  /\ template_mode (Demo.env 8 0)
       (prompt_template
          (format_prompt "hi" "" "" "" "chat" (Demo.start 8 0)).1)
     = "generation"%string.
Proof.
  assert (H : set_mode_sets (Demo.env 8 0)).
  { intros t t' mode Heq. inversion Heq. reflexivity. }
  split; [exact H|].
  exact (proj1 (proj1 (proj2 (format_prompt_restores_mode (Demo.env 8 0) "hi" "" "" "" "chat"
                                (Demo.start 8 0) H)) "hi"%string eq_refl)).
Defined.

(** With a template that cannot build a prompt in the mode [chat], a call
    from the mode [generation] raises and leaves the template in the mode
    [chat]. *)
Lemma format_prompt_restores_mode_counterexample :
  template_mode env_without_chat
    (prompt_template (@Build_State env_without_chat [] "generation"%string))
  = "generation"%string
  /\ (format_prompt (env := env_without_chat) "hi" "" "" "" "chat"
        (@Build_State env_without_chat [] "generation"%string)).2
     = Raise (ValueError "no chat format")
  /\ template_mode env_without_chat
       (prompt_template
          (format_prompt (env := env_without_chat) "hi" "" "" "" "chat"
             (@Build_State env_without_chat [] "generation"%string)).1)
     = "chat"%string.
Proof. repeat split. Qed.

(** ** The generation config *)

Section GenerationConfigFacts.

Context (env : Env) (self : HFModel).

Lemma hasattr_true (config : gmap string pyval) (key : string) :
  hasattr config key = true <-> is_Some (config !! key).
Proof. unfold hasattr. apply bool_decide_eq_true. Qed.


Lemma hasattr_insert (config : gmap string pyval) (key key' : string) (v : pyval) :
  hasattr config key = true ->
  hasattr (<[key := v]> config) key' = hasattr config key'.
Proof.
  intros Hk. destruct (decide (key = key')) as [->|Hne].
  - rewrite Hk. apply hasattr_true. rewrite lookup_insert_eq. eauto.
  - unfold hasattr. rewrite lookup_insert_ne by exact Hne. reflexivity.
Qed.

(** [update] never adds or removes an attribute. *)
Lemma update_hasattr (kwargs : list (string * pyval)) :
  forall (config : gmap string pyval) (key : string),
    hasattr (GenerationConfig_update config kwargs).1 key = hasattr config key.
Proof.
  induction kwargs as [|[k v] kwargs IH]; intros config key; simpl; [reflexivity|].
  destruct (hasattr config k) eqn:Hk.
  - rewrite IH. apply hasattr_insert. exact Hk.
  - specialize (IH config key).
    destruct (GenerationConfig_update config kwargs) as [config' unused]. exact IH.
Qed.

(** The keyword arguments that [update] returns are those that name no
    attribute. *)
Lemma update_unused (kwargs : list (string * pyval)) :
  forall config : gmap string pyval,
    (GenerationConfig_update config kwargs).2
    = List.filter (fun kv => negb (hasattr config kv.1)) kwargs.
Proof.
  induction kwargs as [|[k v] kwargs IH]; intros config; simpl; [reflexivity|].
  destruct (hasattr config k) eqn:Hk; simpl.
  - rewrite IH. apply List.filter_ext. intros [k' v']. simpl.
    rewrite hasattr_insert by exact Hk. reflexivity.
  - specialize (IH config).
    destruct (GenerationConfig_update config kwargs) as [config' unused].
    simpl in *. rewrite IH. reflexivity.
Qed.

(** [update] leaves the attributes it is not given untouched. *)
Lemma update_lookup_other (kwargs : list (string * pyval)) :
  forall (config : gmap string pyval) (key : string),
    ~ In key (map fst kwargs) ->
    (GenerationConfig_update config kwargs).1 !! key = config !! key.
Proof.
  induction kwargs as [|[k v] kwargs IH]; intros config key Hnin; simpl; [reflexivity|].
  simpl in Hnin.
  destruct (hasattr config k) eqn:Hk.
  - rewrite IH by tauto. apply lookup_insert_ne. intros ->. tauto.
  - specialize (IH config key ltac:(tauto)).
    destruct (GenerationConfig_update config kwargs) as [config' unused]. exact IH.
Qed.


(** The attributes of a freshly constructed config. *)
Lemma GenerationConfig_lookup (eos bos pad : pyval) (max_new min_new : Z) (sampling : bool)
    (key : string) :
  GenerationConfig (env := env)
    [("eos_token_id", eos); ("bos_token_id", bos); ("pad_token_id", pad);
     ("max_new_tokens", PInt max_new); ("min_new_tokens", PInt min_new);
     ("do_sample", PBool sampling)]%string !! key
  = if decide (key = "do_sample"%string) then Some (PBool sampling)
    else if decide (key = "min_new_tokens"%string) then Some (PInt min_new)
    else if decide (key = "max_new_tokens"%string) then Some (PInt max_new)
    else if decide (key = "pad_token_id"%string) then Some pad
    else if decide (key = "bos_token_id"%string) then Some bos
    else if decide (key = "eos_token_id"%string) then Some eos
    else GenerationConfig_defaults env !! key.
Proof.
  unfold GenerationConfig. simpl.
  repeat (rewrite lookup_insert; case_decide; [subst; reflexivity|]).
  repeat (case_decide; [congruence|]). reflexivity.
Qed.

Lemma GenerationConfig_hasattr_sampling (eos bos pad : pyval) (max_new min_new : Z)
    (sampling : bool) (key : string) :
  In key sampling_names ->
  GenerationConfig (env := env) (init_kwargs eos bos pad max_new min_new sampling) !! key
  = GenerationConfig_defaults env !! key.
Proof.
  intros Hin. unfold init_kwargs. rewrite GenerationConfig_lookup.
  simpl in Hin. destruct Hin as [<-|[<-|[<-|[]]]]; reflexivity.
Qed.

Lemma resolve_first (field : TokenIds -> pyval) :
  resolve_token_id self field = first_not_None (sources self field).
Proof.
  unfold resolve_token_id, first_not_None, sources. simpl.
  destruct (is_not_None (field (model_generation_config self))); [reflexivity|].
  destruct (is_not_None (field (model_config self))); [reflexivity|].
  destruct (is_not_None (field (tokenizer self))); reflexivity.
Qed.

Lemma resolve_None (field : TokenIds -> pyval) :
  resolve_token_id self field = None <-> missing_everywhere self field.
Proof.
  unfold resolve_token_id, missing_everywhere.
  destruct (field (model_generation_config self)),
           (field (model_config self)),
           (field (tokenizer self)); simpl; split;
    try discriminate; try tauto; intros (? & ? & ?); discriminate.
Qed.

(** What a successful call returns. *)
Lemma create_generation_config_Ok (max_new min_new : Z) (do_sample : bool)
    (top_k top_p : pyval) (temperature : Q) (config : gmap string pyval) :
  create_generation_config (env := env) self max_new min_new do_sample top_k top_p temperature
    = Ok config ->
  exists eos bos,
    resolve_token_id self eos_token_id = Some eos /\
    resolve_token_id self bos_token_id = Some bos /\
    let pad := default eos (resolve_token_id self pad_token_id) in
    let sampling := sampling_enabled do_sample temperature in
    let config0 := GenerationConfig (env := env)
                     (init_kwargs eos bos pad max_new min_new sampling) in
    if sampling then
      config = (GenerationConfig_update config0 (sampling_kwargs top_k top_p temperature)).1
      /\ (GenerationConfig_update config0 (sampling_kwargs top_k top_p temperature)).2 = []
    else config = config0.
Proof.
  unfold create_generation_config.
  fold (sampling_enabled do_sample temperature).
  destruct (resolve_token_id self eos_token_id) as [eos|]; [|discriminate].
  destruct (resolve_token_id self bos_token_id) as [bos|]; [|discriminate].
  intros H. exists eos, bos. split; [reflexivity|]. split; [reflexivity|].
  cbv zeta.
  replace (default eos (resolve_token_id self pad_token_id))
    with (match resolve_token_id self pad_token_id with Some p => p | None => eos end)
    by (destruct (resolve_token_id self pad_token_id); reflexivity).
  fold (init_kwargs eos bos
          (match resolve_token_id self pad_token_id with Some p => p | None => eos end)
          max_new min_new (sampling_enabled do_sample temperature)) in H.
  fold (sampling_kwargs top_k top_p temperature) in H.
  destruct (sampling_enabled do_sample temperature).
  - destruct (GenerationConfig_update _ _) as [config' unused]. simpl.
    destruct unused; simpl in H; [|discriminate]. inversion H. auto.
  - inversion H. reflexivity.
Qed.

(** The sampling flag of the config that is returned. *)
Lemma create_generation_config_do_sample (max_new min_new : Z) (do_sample : bool)
    (top_k top_p : pyval) (temperature : Q) (config : gmap string pyval) :
  create_generation_config (env := env) self max_new min_new do_sample top_k top_p temperature
    = Ok config ->
  config !! "do_sample"%string = Some (PBool (sampling_enabled do_sample temperature)).
Proof.
  intros H. apply create_generation_config_Ok in H.
  destruct H as (eos & bos & _ & _ & H). cbv zeta in H.
  destruct (sampling_enabled do_sample temperature).
  - destruct H as [-> _]. rewrite update_lookup_other.
    + unfold init_kwargs. rewrite GenerationConfig_lookup. reflexivity.
    + simpl. intros [H|[H|[H|[]]]]; discriminate.
  - subst config. unfold init_kwargs. rewrite GenerationConfig_lookup. reflexivity.
Qed.

(** Which arguments of the sampling update come back unused. *)
Lemma sampling_update_unused (eos bos pad : pyval) (max_new min_new : Z) (sampling : bool)
    (top_k top_p : pyval) (temperature : Q) :
  (GenerationConfig_update
     (GenerationConfig (env := env) (init_kwargs eos bos pad max_new min_new sampling))
     (sampling_kwargs top_k top_p temperature)).2
  = List.filter (fun kv => negb (hasattr (GenerationConfig_defaults env) kv.1))
      (sampling_kwargs top_k top_p temperature).
Proof.
  rewrite update_unused. unfold sampling_kwargs. simpl. unfold hasattr.
  rewrite !GenerationConfig_hasattr_sampling by (simpl; tauto). reflexivity.
Qed.

Lemma sampling_all_recognized (top_k top_p : pyval) (temperature : Q) :
  forallb (hasattr (GenerationConfig_defaults env)) sampling_names = true ->
  List.filter (fun kv => negb (hasattr (GenerationConfig_defaults env) kv.1))
    (sampling_kwargs top_k top_p temperature) = [].
Proof.
  simpl. rewrite !andb_true_iff. intros (-> & -> & -> & _). reflexivity.
Qed.


(** C5. Each of the end-of-sequence, beginning-of-sequence and padding
    identifiers is the first value that is not [None] among the model's
    generation defaults, the model's static configuration and the tokenizer,
    in this order.  With a library class that declares the three sampling
    attributes, [create_generation_config] raises if and only if the
    end-of-sequence or the beginning-of-sequence identifier is missing from
    all three sources, and what it raises is then a [RuntimeError]; a
    missing padding identifier does not raise and the padding identifier is
    then the resolved end-of-sequence identifier. *)
Theorem token_ids_resolution (max_new min_new : Z) (do_sample : bool)
    (top_k top_p : pyval) (temperature : Q) :
  forallb (hasattr (GenerationConfig_defaults env)) sampling_names = true ->
  let outcome :=
    create_generation_config (env := env) self max_new min_new do_sample top_k top_p
      temperature in
  (forall field, resolve_token_id self field = first_not_None (sources self field))
  /\ ((exists e, outcome = Raise e) <->
       missing_everywhere self eos_token_id \/ missing_everywhere self bos_token_id)
  /\ (forall e, outcome = Raise e -> exists msg, e = RuntimeError msg)
  /\ (forall config, outcome = Ok config ->
        config !! "eos_token_id"%string = first_not_None (sources self eos_token_id)
        /\ config !! "bos_token_id"%string = first_not_None (sources self bos_token_id)
        /\ config !! "pad_token_id"%string
           = match first_not_None (sources self pad_token_id) with
             | Some pad => Some pad
             | None => first_not_None (sources self eos_token_id)
             end).
Proof.
  intros Hattrs outcome. split; [exact resolve_first|].
  assert (Hcases :
    (resolve_token_id self eos_token_id = None /\ exists msg, outcome = Raise (RuntimeError msg))
    \/ (resolve_token_id self eos_token_id <> None
        /\ resolve_token_id self bos_token_id = None
        /\ exists msg, outcome = Raise (RuntimeError msg))
    \/ (resolve_token_id self eos_token_id <> None
        /\ resolve_token_id self bos_token_id <> None
        /\ exists config, outcome = Ok config)).
  { subst outcome. unfold create_generation_config.
    fold (sampling_enabled do_sample temperature).
    destruct (resolve_token_id self eos_token_id) as [eos|]; [|left; eauto].
    destruct (resolve_token_id self bos_token_id) as [bos|];
      [|right; left; split; [discriminate|]; eauto].
    right; right. split; [discriminate|]. split; [discriminate|].
    fold (init_kwargs eos bos
            (match resolve_token_id self pad_token_id with Some p => p | None => eos end)
            max_new min_new (sampling_enabled do_sample temperature)).
    fold (sampling_kwargs top_k top_p temperature).
    destruct (sampling_enabled do_sample temperature); [|eauto].
    pose proof (sampling_update_unused eos bos
            (match resolve_token_id self pad_token_id with Some p => p | None => eos end)
            max_new min_new true top_k top_p temperature) as Hun.
    rewrite sampling_all_recognized in Hun by exact Hattrs.
    destruct (GenerationConfig_update _ _) as [config' unused]. simpl in Hun. subst unused.
    simpl. eauto. }
  split; [|split].
  - rewrite <- !resolve_None. split.
    + intros [e He].
      destruct Hcases as [[H _]|[(_ & H & _)|(_ & _ & [c Hc])]]; [tauto | tauto | congruence].
    + intros Hmiss.
      destruct Hcases as [[_ [msg H]]|[(_ & _ & [msg H])|(H1 & H2 & _)]]; [eauto | eauto | tauto].
  - intros e He.
    destruct Hcases as [[_ [msg H]]|[(_ & _ & [msg H])|(_ & _ & [c Hc])]];
      [exists msg | exists msg | ]; congruence.
  - intros config Hok. subst outcome.
    apply create_generation_config_Ok in Hok.
    destruct Hok as (eos & bos & Heos & Hbos & Hcfg). cbv zeta in Hcfg.
    rewrite <- !resolve_first, Heos, Hbos.
    assert (Hlook : forall key : string,
              ~ In key sampling_names ->
              config !! key
              = GenerationConfig (env := env)
                  (init_kwargs eos bos (default eos (resolve_token_id self pad_token_id))
                     max_new min_new (sampling_enabled do_sample temperature)) !! key).
    { intros key Hkey. destruct (sampling_enabled do_sample temperature).
      - destruct Hcfg as [-> _]. apply update_lookup_other. exact Hkey.
      - subst config. reflexivity. }
    rewrite !Hlook by (simpl; intros [H|[H|[H|[]]]]; discriminate).
    unfold init_kwargs. rewrite !GenerationConfig_lookup. simpl.
    destruct (resolve_token_id self pad_token_id); auto.
Qed.


End GenerationConfigFacts.

Lemma token_ids_resolution_witness :
  exists config,
    create_generation_config (env := Demo.env 8 0) (Demo.model "m" 7 7) 60 5 true
      (PInt 40) (PFloat (9 # 10)) (9 # 10) = Ok config
    /\ config !! "eos_token_id"%string = Some (PInt 2)
    /\ config !! "pad_token_id"%string = Some (PInt 2).
Proof.
  assert (Hattrs : forallb (hasattr (GenerationConfig_defaults (Demo.env 8 0)))
                     sampling_names = true) by (vm_compute; reflexivity).
  destruct (token_ids_resolution (Demo.env 8 0) (Demo.model "m" 7 7) 60 5 true
              (PInt 40) (PFloat (9 # 10)) (9 # 10) Hattrs) as (_ & Hiff & _ & Hok).
  destruct (create_generation_config (env := Demo.env 8 0) (Demo.model "m" 7 7) 60 5 true
              (PInt 40) (PFloat (9 # 10)) (9 # 10)) as [config|e] eqn:Hrun.
  - exists config. split; [reflexivity|].
    destruct (Hok config eq_refl) as (Heos & _ & Hpad).
    split; [exact Heos | exact Hpad].
  - exfalso.
    destruct (proj1 Hiff (ex_intro _ e eq_refl)) as [(H & _)|(H & _)]; discriminate H.
Defined.

(** ** Sampling *)

Section SamplingFacts.

Context (env : Env) (self : HFModel).




End SamplingFacts.



(** ** The out-of-memory safe executor *)

Section OomSafeFacts.

Context (env : Env).

Implicit Types (input : Tensor) (config : gmap string pyval)
  (criteria : option (list (Criteria env))) (kwargs : Kwargs env) (st : State env).

Lemma new_batch_size_floor (b : Z) : new_batch_size b = Z.max 1 (4 * b / 5).
Proof.
  unfold new_batch_size. f_equal.
  unfold Qfloor, inject_Z, Qmult. simpl.
  replace (b * 8) with (2 * (4 * b)) by lia.
  change (Z.pos (1 * 10)) with (2 * 5).
  apply Z.div_mul_cancel_l; lia.
Qed.

Lemma new_batch_size_bounds (b : Z) : 2 <= b -> 1 <= new_batch_size b < b.
Proof.
  intros Hb. rewrite new_batch_size_floor.
  assert (4 * b / 5 < b) by (apply Z.div_lt_upper_bound; lia).
  lia.
Qed.

Lemma new_batch_size_nonpositive (b : Z) : b <= 0 -> new_batch_size b = 1.
Proof.
  intros Hb. rewrite new_batch_size_floor.
  assert (4 * b / 5 <= 0) by (apply Z.div_le_upper_bound; lia).
  lia.
Qed.

(** One unfolding of the method, by the outcome of the call to the model. *)
Lemma oom_safe_fuel_ok (fuel : nat) input config criteria b kwargs st (out : Tensor) :
  model_generate env (events st) input config criteria b kwargs = Ok out ->
  oom_safe_batch_generation_fuel (S fuel) input config criteria b kwargs st
  = Some (after st [Generate b], Ok (out, b)).
Proof. intros H. simpl. unfold call_generate. rewrite H. reflexivity. Qed.

Lemma oom_safe_fuel_other (fuel : nat) input config criteria b kwargs st (e : exn) :
  model_generate env (events st) input config criteria b kwargs = Raise e ->
  isinstance_OutOfMemoryError e = false ->
  oom_safe_batch_generation_fuel (S fuel) input config criteria b kwargs st
  = Some (after st [Generate b], Raise e).
Proof.
  intros H He. simpl. unfold call_generate. rewrite H.
  destruct e; simpl in *; try reflexivity; discriminate.
Qed.

Lemma oom_safe_fuel_floor (fuel : nat) input config criteria kwargs st (e : exn) :
  model_generate env (events st) input config criteria 1 kwargs = Raise e ->
  isinstance_OutOfMemoryError e = true ->
  oom_safe_batch_generation_fuel (S fuel) input config criteria 1 kwargs st
  = Some (after st [Generate 1],
          Raise (RuntimeError
            "Even a batch size of 1 causes an OOM. Cannot generate with current config.")).
Proof.
  intros H He. simpl. unfold call_generate. rewrite H.
  destruct e; simpl in *; try discriminate. reflexivity.
Qed.

Lemma oom_safe_fuel_retry (fuel : nat) input config criteria b kwargs st (e : exn) :
  model_generate env (events st) input config criteria b kwargs = Raise e ->
  isinstance_OutOfMemoryError e = true ->
  b <> 1 ->
  oom_safe_batch_generation_fuel (S fuel) input config criteria b kwargs st
  = oom_safe_batch_generation_fuel fuel input config criteria (new_batch_size b) kwargs
      (after st [Generate b; Warn (ReducingBatchSize b (new_batch_size b));
                 GcCollect; EmptyCache]).
Proof.
  intros H He Hb. simpl. unfold call_generate. rewrite H.
  destruct e; simpl in *; try discriminate.
  apply Z.eqb_neq in Hb. rewrite Hb.
  unfold bind, emit, after. simpl. rewrite <- !app_assoc. reflexivity.
Qed.

Lemma enough_depth (b : Z) : enough (oom_safe_depth b) b.
Proof. unfold enough, oom_safe_depth. lia. Qed.

Lemma enough_retry (fuel : nat) (b : Z) :
  enough (S fuel) b -> b <> 1 -> enough fuel (new_batch_size b).
Proof.
  unfold enough. intros [_ H] Hb. specialize (H Hb).
  destruct (Z_le_gt_dec b 0) as [Hle|Hgt].
  - rewrite new_batch_size_nonpositive by exact Hle. split; [lia | congruence].
  - pose proof (new_batch_size_bounds b ltac:(lia)). split; lia.
Qed.

(** The recursion ends before the fuel does. *)
Lemma oom_safe_fuel_enough (fuel : nat) :
  forall input config criteria b kwargs st,
    enough fuel b ->
    exists r, oom_safe_batch_generation_fuel fuel input config criteria b kwargs st = Some r.
Proof.
  induction fuel as [|fuel IH]; intros input config criteria b kwargs st Hen.
  - destruct Hen as [H _]. lia.
  - destruct (model_generate env (events st) input config criteria b kwargs)
      as [out|e] eqn:Hgen.
    + rewrite (oom_safe_fuel_ok _ _ _ _ _ _ _ _ Hgen). eauto.
    + destruct (isinstance_OutOfMemoryError e) eqn:He.
      * destruct (Z.eq_dec b 1) as [->|Hb].
        -- rewrite (oom_safe_fuel_floor _ _ _ _ _ _ _ Hgen He). eauto.
        -- rewrite (oom_safe_fuel_retry _ _ _ _ _ _ _ _ Hgen He Hb).
           apply IH. apply enough_retry; assumption.
      * rewrite (oom_safe_fuel_other _ _ _ _ _ _ _ _ Hgen He). eauto.
Qed.

(** More fuel does not change a result. *)
Lemma oom_safe_fuel_mono (fuel : nat) :
  forall fuel' input config criteria b kwargs st r,
    oom_safe_batch_generation_fuel fuel input config criteria b kwargs st = Some r ->
    (fuel <= fuel')%nat ->
    oom_safe_batch_generation_fuel fuel' input config criteria b kwargs st = Some r.
Proof.
  induction fuel as [|fuel IH]; intros fuel' input config criteria b kwargs st r Hr Hle.
  - discriminate.
  - destruct fuel' as [|fuel']; [lia|].
    destruct (model_generate env (events st) input config criteria b kwargs)
      as [out|e] eqn:Hgen.
    + rewrite (oom_safe_fuel_ok fuel _ _ _ _ _ _ _ Hgen) in Hr.
      rewrite (oom_safe_fuel_ok fuel' _ _ _ _ _ _ _ Hgen). exact Hr.
    + destruct (isinstance_OutOfMemoryError e) eqn:He.
      * destruct (Z.eq_dec b 1) as [->|Hb].
        -- rewrite (oom_safe_fuel_floor fuel _ _ _ _ _ _ Hgen He) in Hr.
           rewrite (oom_safe_fuel_floor fuel' _ _ _ _ _ _ Hgen He). exact Hr.
        -- rewrite (oom_safe_fuel_retry fuel _ _ _ _ _ _ _ Hgen He Hb) in Hr.
           rewrite (oom_safe_fuel_retry fuel' _ _ _ _ _ _ _ Hgen He Hb).
           apply IH; [exact Hr | lia].
      * rewrite (oom_safe_fuel_other fuel _ _ _ _ _ _ _ Hgen He) in Hr.
        rewrite (oom_safe_fuel_other fuel' _ _ _ _ _ _ _ Hgen He). exact Hr.
Qed.

(** The method is the fuelled recursion at any sufficient depth. *)
Lemma oom_safe_unfold (fuel : nat) input config criteria b kwargs st :
  enough fuel b ->
  oom_safe_batch_generation_fuel fuel input config criteria b kwargs st
  = Some (oom_safe_batch_generation input config criteria b kwargs st).
Proof.
  intros Hen. unfold oom_safe_batch_generation.
  destruct (oom_safe_fuel_enough _ input config criteria b kwargs st (enough_depth b))
    as [r Hr].
  destruct (oom_safe_fuel_enough _ input config criteria b kwargs st Hen) as [r' Hr'].
  rewrite Hr, Hr'. f_equal.
  destruct (Nat.le_ge_cases fuel (oom_safe_depth b)) as [Hle|Hge].
  - pose proof (oom_safe_fuel_mono _ _ _ _ _ _ _ _ _ Hr' Hle). congruence.
  - pose proof (oom_safe_fuel_mono _ _ _ _ _ _ _ _ _ Hr Hge). congruence.
Qed.

(** C3. When the call to the model at batch size [b] fails with an
    out-of-memory error and [b > 1], the executor emits the warning, collects
    garbage, empties the device cache and then runs again at
    [max(1, floor(0.8 * b))]; when the call fails with any other error, that
    error is what the executor raises, right after the one call and with
    nothing else done. *)
Theorem oom_safe_step input config criteria (b : Z) kwargs st :
  (model_generate env (events st) input config criteria b kwargs = Raise OutOfMemoryError ->
   1 < b ->
   oom_safe_batch_generation input config criteria b kwargs st
   = oom_safe_batch_generation input config criteria (Z.max 1 (4 * b / 5)) kwargs
       (after st [Generate b; Warn (ReducingBatchSize b (Z.max 1 (4 * b / 5)));
                  GcCollect; EmptyCache]))
  /\ (forall e,
        model_generate env (events st) input config criteria b kwargs = Raise e ->
        e <> OutOfMemoryError ->
        oom_safe_batch_generation input config criteria b kwargs st
        = (after st [Generate b], Raise e)).
Proof.
  split.
  - intros Hgen Hb. rewrite <- new_batch_size_floor.
    set (st' := after st _).
    assert (Hne : b <> 1) by lia.
    pose (fuel := oom_safe_depth b).
    assert (Hen : enough (S fuel) b) by (unfold enough, fuel, oom_safe_depth; lia).
    pose proof (oom_safe_unfold (S fuel) input config criteria b kwargs st Hen) as H1.
    rewrite (oom_safe_fuel_retry fuel input config criteria b kwargs st _ Hgen eq_refl Hne)
      in H1.
    fold st' in H1.
    rewrite (oom_safe_unfold fuel input config criteria (new_batch_size b) kwargs st'
               (enough_retry _ _ Hen Hne)) in H1.
    congruence.
  - intros e Hgen He.
    assert (Hoom : isinstance_OutOfMemoryError e = false)
      by (destruct e; try reflexivity; congruence).
    pose proof (oom_safe_unfold _ input config criteria b kwargs st (enough_depth b))
      as H1.
    unfold oom_safe_depth in H1. rewrite Nat.add_comm in H1. simpl Nat.add in H1.
    rewrite (oom_safe_fuel_other _ input config criteria b kwargs st e Hgen Hoom) in H1.
    congruence.
Qed.

Lemma attempts_app (tr1 tr2 : list event) : attempts (tr1 ++ tr2) = attempts tr1 ++ attempts tr2.
Proof. unfold attempts. apply omap_app. Qed.

(** The shape of the chain of sizes tried under persistent exhaustion. *)
Lemma oom_chain_shape (fuel : nat) :
  forall b : Z,
    1 <= b ->
    enough fuel b ->
    exists rest,
      oom_chain fuel b = b :: rest
      /\ last (oom_chain fuel b) = Some 1
      /\ strictly_decreasing (oom_chain fuel b)
      /\ Forall (fun n => 1 <= n <= b) (oom_chain fuel b)
      /\ (length (oom_chain fuel b) <= Z.to_nat b)%nat.
Proof.
  induction fuel as [|fuel IH]; intros b Hb Hen.
  - destruct Hen as [H _]. lia.
  - simpl. destruct (Z.eqb_spec b 1) as [->|Hne].
    + exists []. repeat split; simpl; auto.
    + pose proof (new_batch_size_bounds b ltac:(lia)) as Hnb.
      destruct (IH (new_batch_size b) ltac:(lia) (enough_retry _ _ Hen Hne))
        as (rest & Heq & Hlast & Hdec & Hall & Hlen).
      exists (oom_chain fuel (new_batch_size b)).
      split; [reflexivity|].
      rewrite Heq in *. repeat split.
      * exact Hlast.
      * lia.
      * exact Hdec.
      * constructor; [lia|].
        eapply Forall_impl; [exact Hall|]. simpl. intros; lia.
      * simpl in *. lia.
Qed.

(** The run of the executor when every call runs out of memory. *)
Lemma oom_safe_fuel_exhausted (fuel : nat) :
  always_out_of_memory env ->
  forall input config criteria b kwargs st,
    enough fuel b ->
    exists st',
      oom_safe_batch_generation_fuel fuel input config criteria b kwargs st
      = Some (st', Raise (RuntimeError
          "Even a batch size of 1 causes an OOM. Cannot generate with current config."))
      /\ attempts (events st') = attempts (events st) ++ oom_chain fuel b
      /\ prompt_template st' = prompt_template st.
Proof.
  intros Hoom. induction fuel as [|fuel IH]; intros input config criteria b kwargs st Hen.
  - destruct Hen as [H _]. lia.
  - pose proof (Hoom (events st) input config criteria b kwargs) as Hgen.
    destruct (Z.eq_dec b 1) as [->|Hne].
    + rewrite (oom_safe_fuel_floor _ _ _ _ _ _ _ Hgen eq_refl).
      eexists. split; [reflexivity|]. simpl. rewrite attempts_app. auto.
    + rewrite (oom_safe_fuel_retry _ _ _ _ _ _ _ _ Hgen eq_refl Hne).
      destruct (IH input config criteria (new_batch_size b) kwargs
                  (after st [Generate b; Warn (ReducingBatchSize b (new_batch_size b));
                             GcCollect; EmptyCache])
                  (enough_retry _ _ Hen Hne)) as (st' & Hrun & Hatt & Htpl).
      exists st'. split; [exact Hrun|]. split; [|exact Htpl].
      rewrite Hatt. simpl. rewrite attempts_app. simpl.
      apply Z.eqb_neq in Hne. rewrite Hne. rewrite <- app_assoc. reflexivity.
Qed.

(** C4. When every call to the model runs out of memory, the executor
    started at a batch size [b >= 1] tries a chain of sizes that starts at
    [b], strictly decreases, stays at or above 1, ends at 1 and has at most
    [b] entries, and then raises the [RuntimeError] of line 637. *)
Theorem persistent_oom input config criteria (b : Z) kwargs st :
  always_out_of_memory env ->
  1 <= b ->
  exists st' chain rest,
    oom_safe_batch_generation input config criteria b kwargs st
    = (st', Raise (RuntimeError
         "Even a batch size of 1 causes an OOM. Cannot generate with current config."))
    /\ attempts (events st') = attempts (events st) ++ chain
    /\ chain = b :: rest
    /\ last chain = Some 1
    /\ strictly_decreasing chain
    /\ Forall (fun n => 1 <= n <= b) chain
    /\ (length chain <= Z.to_nat b)%nat.
Proof.
  intros Hoom Hb.
  destruct (oom_safe_fuel_exhausted _ Hoom input config criteria b kwargs st
              (enough_depth b)) as (st' & Hrun & Hatt & _).
  destruct (oom_chain_shape _ b Hb (enough_depth b))
    as (rest & Heq & Hlast & Hdec & Hall & Hlen).
  exists st', (oom_chain (oom_safe_depth b) b), rest.
  rewrite (oom_safe_unfold _ input config criteria b kwargs st (enough_depth b)) in Hrun.
  repeat split; try assumption. congruence.
Qed.

End OomSafeFacts.

Lemma oom_safe_step_witness :
  oom_safe_batch_generation (env := Demo.env 7 0) [[1; 2; 3]] ∅ None 10 tt (Demo.start 7 0)
  = oom_safe_batch_generation (env := Demo.env 7 0) [[1; 2; 3]] ∅ None 8 tt
      (after (Demo.start 7 0)
         [Generate 10; Warn (ReducingBatchSize 10 8); GcCollect; EmptyCache]).
Proof.
  apply (proj1 (oom_safe_step (Demo.env 7 0) [[1; 2; 3]] ∅ None 10 tt (Demo.start 7 0)));
    [reflexivity | lia].
Defined.

Lemma persistent_oom_witness :
  always_out_of_memory Demo.env_exhausted
  /\ exists st' chain rest,
       oom_safe_batch_generation (env := Demo.env_exhausted) [[1; 2; 3]] ∅ None 10 tt
         Demo.start_exhausted
       = (st', Raise (RuntimeError
            "Even a batch size of 1 causes an OOM. Cannot generate with current config."))
       /\ attempts (events st') = attempts (events Demo.start_exhausted) ++ chain
       /\ chain = 10 :: rest
       /\ last chain = Some 1
       /\ strictly_decreasing chain
       /\ Forall (fun n => 1 <= n <= 10) chain
       /\ (length chain <= Z.to_nat 10)%nat.
Proof.
  assert (H : always_out_of_memory Demo.env_exhausted)
    by (intros tr input config criteria n kwargs; reflexivity).
  split; [exact H|].
  apply (persistent_oom Demo.env_exhausted [[1; 2; 3]] ∅ None 10 tt Demo.start_exhausted H).
  lia.
Defined.

(** The example of the specification: a first batch of 10 that runs out of
    memory at 10 and at 8 succeeds at 6. *)
Example oom_safe_10_8_6 :
  let r := oom_safe_batch_generation (env := Demo.env 7 0) [[1; 2; 3]] ∅ None 10 tt
             (Demo.start 7 0) in
  attempts (events r.1) = [10; 8; 6]
  /\ (exists out, r.2 = Ok (out, 6)).
Proof. vm_compute. split; [reflexivity | eauto]. Qed.

(** Under persistent exhaustion from 10 the sizes tried are 10, 8, 6, 4, 3,
    2 and 1. *)
Example oom_chain_10 : oom_chain (oom_safe_depth 10) 10 = [10; 8; 6; 4; 3; 2; 1].
Proof. reflexivity. Qed.

(** ** The heuristic estimator *)

Section HeuristicsFacts.

Context (self : HFModel).

Local Open Scope Q_scope.

Lemma heuristic_unit_positive (parameters : Q) : 0 < heuristic_unit parameters.
Proof.
  unfold heuristic_unit.
  destruct (Qltb parameters 5); [reflexivity|].
  destruct (Qltb parameters 10); [reflexivity|].
  destruct (Qltb parameters 20); reflexivity.
Qed.

Lemma heuristics_unfold (available_memory : Q) :
  infer_best_batch_size_by_heuristics self available_memory
  = Z.max (Qfloor (available_memory / heuristic_unit (parameters_count self))) 1.
Proof.
  unfold infer_best_batch_size_by_heuristics, heuristic_unit.
  destruct (Qltb (parameters_count self) 5); [reflexivity|].
  destruct (Qltb (parameters_count self) 10); [reflexivity|].
  destruct (Qltb (parameters_count self) 20); reflexivity.
Qed.

(** A floor of a quotient by a positive number brackets the dividend. *)
Lemma Qfloor_div_bracket (a u : Q) :
  0 < u ->
  inject_Z (Qfloor (a / u)) * u <= a /\ a < inject_Z (Qfloor (a / u) + 1) * u.
Proof.
  intros Hu.
  assert (Hne : ~ u == 0) by (intros H; rewrite H in Hu; discriminate).
  assert (Ha : a == a / u * u) by (field; exact Hne).
  split.
  - rewrite Ha at 2. apply Qmult_le_compat_r; [apply Qfloor_le | apply Qlt_le_weak, Hu].
  - rewrite Ha at 1. apply Qmult_lt_compat_r; [exact Hu | apply Qlt_floor].
Qed.

(** X1. The heuristic estimate is at least 1 for every amount of available
    memory, also a negative one.  When the memory covers the assumed cost of
    one sequence, the estimate is the largest number of sequences whose
    assumed cost fits the memory; when it does not, the estimate is 1. *)
Theorem heuristics_bounds (available_memory : Q) :
  let unit := heuristic_unit (parameters_count self) in
  let batch := infer_best_batch_size_by_heuristics self available_memory in
  (1 <= batch)%Z
  /\ (unit <= available_memory ->
      inject_Z batch * unit <= available_memory
      /\ available_memory < inject_Z (batch + 1) * unit)
  /\ (available_memory < unit -> batch = 1%Z).
Proof.
  intros unit batch. subst batch. rewrite heuristics_unfold. fold unit.
  pose proof (heuristic_unit_positive (parameters_count self)) as Hu. fold unit in Hu.
  destruct (Qfloor_div_bracket available_memory unit Hu) as [Hlo Hhi].
  split; [lia|]. split.
  - intros Hfit.
    assert (H1 : (1 <= Qfloor (available_memory / unit))%Z).
    { change 1%Z with (Qfloor 1). apply Qfloor_resp_le.
      apply Qle_shift_div_l; [exact Hu|]. rewrite Qmult_1_l. exact Hfit. }
    rewrite Z.max_l by lia. split; assumption.
  - intros Hsmall.
    assert (H0 : (Qfloor (available_memory / unit) < 1)%Z).
    { apply Z.lt_nge. intros H1.
      assert (H2 : inject_Z 1 <= inject_Z (Qfloor (available_memory / unit)))
        by (rewrite <- Zle_Qle; exact H1).
      assert (H3 : 1 * unit <= inject_Z (Qfloor (available_memory / unit)) * unit)
        by (apply Qmult_le_compat_r; [exact H2 | apply Qlt_le_weak, Hu]).
      rewrite Qmult_1_l in H3.
      apply (Qlt_irrefl unit).
      eapply Qle_lt_trans; [exact H3|]. eapply Qle_lt_trans; [exact Hlo | exact Hsmall]. }
    lia.
Qed.

(** X2. More available memory never gives a smaller heuristic estimate. *)
Theorem heuristics_monotone (memory memory' : Q) :
  memory <= memory' ->
  (infer_best_batch_size_by_heuristics self memory
   <= infer_best_batch_size_by_heuristics self memory')%Z.
Proof.
  intros Hle. rewrite !heuristics_unfold.
  apply Z.max_le_compat_r. apply Qfloor_resp_le.
  pose proof (heuristic_unit_positive (parameters_count self)) as Hu.
  unfold Qdiv. apply Qmult_le_compat_r; [exact Hle|].
  apply Qlt_le_weak, Qinv_lt_0_compat, Hu.
Qed.

End HeuristicsFacts.

Lemma heuristics_monotone_witness :
  (10 <= 25)%Q
  /\ (infer_best_batch_size_by_heuristics (Demo.model "m" 7 7) 10
      <= infer_best_batch_size_by_heuristics (Demo.model "m" 7 7) 25)%Z.
Proof.
  split; [discriminate|].
  apply (heuristics_monotone (Demo.model "m" 7 7) 10 25). discriminate.
Defined.

(** The example of the specification: seven billion parameters and 10 GiB of
    available memory give a batch size of 10. *)
Example heuristics_7B_10GiB :
  infer_best_batch_size_by_heuristics (Demo.model "m" 7 7) 10 = 10.
Proof. reflexivity. Qed.

Lemma heuristics_bounds_witness :
  (1 <= infer_best_batch_size_by_heuristics (Demo.model "m" 7 7) 10)%Z
  /\ (inject_Z (infer_best_batch_size_by_heuristics (Demo.model "m" 7 7) 10)
      * heuristic_unit (parameters_count (Demo.model "m" 7 7)) <= 10)%Q.
Proof.
  destruct (heuristics_bounds (Demo.model "m" 7 7) 10) as (Hone & Hfit & _).
  split; [exact Hone|].
  apply Hfit. discriminate.
Defined.

(** ** The numeric precision category *)

Section DtypeCategoryFacts.

Context (self : HFModel).

Lemma after_first_dot_split (prefix rest : string) :
  ~ has_dot prefix ->
  after_first_dot (prefix ++ String dot rest) = Ok rest.
Proof.
  induction prefix as [|c prefix IH]; simpl; intros Hno.
  - reflexivity.
  - destruct (Ascii.eqb_spec c (Ascii.ascii_of_nat 46)) as [->|Hne].
    + exfalso. apply Hno. left. reflexivity.
    + apply IH. intros Hin. apply Hno. right. exact Hin.
Qed.

Lemma after_first_dot_raises (s : string) :
  after_first_dot s = Raise IndexError <-> ~ has_dot s.
Proof.
  induction s as [|c s IH]; simpl.
  - split; [intros _ [] | reflexivity].
  - destruct (Ascii.eqb_spec c (Ascii.ascii_of_nat 46)) as [->|Hne].
    + split; [discriminate | intros Hno; exfalso; apply Hno; left; reflexivity].
    + rewrite IH. unfold dot. tauto.
Qed.

(** X3. [dtype_category] is ["int4"] for a 4-bit model whatever the 8-bit
    flag says, ["int8"] for an 8-bit model that is not 4-bit, and otherwise
    what follows the first dot of [str(self.dtype)]; for a model that is not
    quantized it raises [IndexError] exactly when that string has no dot. *)
Theorem dtype_category_cases :
  (quantization_4bits self = true -> dtype_category self = Ok "int4"%string)
  /\ (quantization_4bits self = false -> quantization_8bits self = true ->
      dtype_category self = Ok "int8"%string)
  /\ (quantization_4bits self = false -> quantization_8bits self = false ->
      (forall prefix rest,
         dtype self = (prefix ++ String dot rest)%string -> ~ has_dot prefix ->
         dtype_category self = Ok rest)
      /\ (dtype_category self = Raise IndexError <-> ~ has_dot (dtype self))).
Proof.
  unfold dtype_category. split; [|split].
  - intros ->. reflexivity.
  - intros -> ->. reflexivity.
  - intros -> ->. split.
    + intros prefix rest -> Hno. apply after_first_dot_split. exact Hno.
    + apply after_first_dot_raises.
Qed.

End DtypeCategoryFacts.

Lemma dtype_category_cases_witness :
  dtype_category (Demo.model "m" 7 7) = Ok "float16"%string.
Proof.
  destruct (dtype_category_cases (Demo.model "m" 7 7)) as (_ & _ & H).
  destruct (H eq_refl eq_refl) as [Hsplit _].
  apply (Hsplit "torch"%string "float16"%string); [reflexivity|].
  simpl. unfold dot. intros [H1|[H1|[H1|[H1|[H1|[]]]]]]; discriminate H1.
Defined.

(** ** More on the out-of-memory safe executor *)

Section OomSafeRuns.

Context (env : Env).

Implicit Types (input : Tensor) (config : gmap string pyval)
  (criteria : option (list (Criteria env))) (kwargs : Kwargs env) (st : State env).

Lemma after_after st (evs evs' : list event) :
  after (after st evs) evs' = after st (evs ++ evs').
Proof. unfold after. simpl. rewrite <- app_assoc. reflexivity. Qed.

(** The trace of a run, whatever its outcome. *)
Lemma oom_safe_fuel_trace (fuel : nat) :
  forall input config criteria b kwargs st st' r,
    oom_safe_batch_generation_fuel fuel input config criteria b kwargs st = Some (st', r) ->
    exists sizes last,
      st' = after st (flat_map retry_block sizes ++ [Generate last])
      /\ head (sizes ++ [last]) = Some b
      /\ reductions (sizes ++ [last])
      /\ Forall (fun size => size <> 1) sizes
      /\ (forall out b', r = Ok (out, b') ->
            b' = last
            /\ model_generate env (events st ++ flat_map retry_block sizes) input config
                 criteria last kwargs = Ok out).
Proof.
  induction fuel as [|fuel IH]; intros input config criteria b kwargs st st' r Hrun.
  - discriminate.
  - destruct (model_generate env (events st) input config criteria b kwargs)
      as [out|e] eqn:Hgen.
    + rewrite (oom_safe_fuel_ok env fuel _ _ _ _ _ _ _ Hgen) in Hrun.
      inversion Hrun; subst. exists [], b. simpl. rewrite app_nil_r.
      repeat split; auto; congruence.
    + destruct (isinstance_OutOfMemoryError e) eqn:He.
      * destruct (Z.eq_dec b 1) as [->|Hb].
        -- rewrite (oom_safe_fuel_floor env fuel _ _ _ _ _ _ Hgen He) in Hrun.
           inversion Hrun; subst. exists [], 1. simpl.
           repeat split; auto; discriminate.
        -- rewrite (oom_safe_fuel_retry env fuel _ _ _ _ _ _ _ Hgen He Hb) in Hrun.
           fold (retry_block b) in Hrun.
           destruct (IH _ _ _ _ _ _ _ _ Hrun)
             as (sizes & last & Hst & Hhead & Hred & Hne & Hok).
           exists (b :: sizes), last.
           split; [|split; [|split; [|split]]].
           ++ rewrite Hst, after_after. reflexivity.
           ++ reflexivity.
           ++ simpl. destruct (sizes ++ [last]) as [|a rest] eqn:Heq;
                [destruct sizes; discriminate|].
              simpl in Hhead. split; [congruence | exact Hred].
           ++ constructor; assumption.
           ++ intros out b' Hr. destruct (Hok out b' Hr) as [-> Hgen'].
              split; [reflexivity|].
              unfold after in Hgen'. simpl events in Hgen'.
              rewrite <- app_assoc in Hgen'. exact Hgen'.
      * rewrite (oom_safe_fuel_other env fuel _ _ _ _ _ _ _ Hgen He) in Hrun.
        inversion Hrun; subst. exists [], b. simpl.
        repeat split; auto; discriminate.
Qed.

(** X4. Whatever its outcome, a call of [oom_safe_batch_generation] leaves
    the trace of a sequence of failed attempts followed by one last call to
    the model: each failed attempt is a call at a size other than 1, then the
    warning, then [gc.collect()] and [torch.cuda.empty_cache()]; the sizes
    start at the given batch size and each next one is the reduction of the
    one before.  So memory is released between any two calls to the model.
    When the call returns, it returns the output of the last call together
    with the size of that call.  The prompt template is not touched. *)
Theorem oom_safe_trace input config criteria (b : Z) kwargs st :
  let run := oom_safe_batch_generation input config criteria b kwargs st in
  exists sizes last,
    run.1 = after st (flat_map retry_block sizes ++ [Generate last])
    /\ head (sizes ++ [last]) = Some b
    /\ reductions (sizes ++ [last])
    /\ Forall (fun size => size <> 1) sizes
    /\ (forall out b', run.2 = Ok (out, b') ->
          b' = last
          /\ model_generate env (events st ++ flat_map retry_block sizes) input config
               criteria last kwargs = Ok out).
Proof.
  intros run.
  pose proof (oom_safe_unfold env _ input config criteria b kwargs st (enough_depth b))
    as Hrun.
  fold run in Hrun. destruct run as [st' r]. simpl.
  exact (oom_safe_fuel_trace _ _ _ _ _ _ _ _ _ Hrun).
Qed.

Lemma oom_safe_fuel_size (fuel : nat) :
  forall input config criteria b kwargs st st' out b',
    oom_safe_batch_generation_fuel fuel input config criteria b kwargs st
      = Some (st', Ok (out, b')) ->
    (1 <= b -> 1 <= b' <= b) /\ (b <= 0 -> b' = b \/ b' = 1).
Proof.
  induction fuel as [|fuel IH]; intros input config criteria b kwargs st st' out b' Hrun.
  - discriminate.
  - destruct (model_generate env (events st) input config criteria b kwargs)
      as [out0|e] eqn:Hgen.
    + rewrite (oom_safe_fuel_ok env fuel _ _ _ _ _ _ _ Hgen) in Hrun.
      inversion Hrun; subst. split; intros; [lia | auto].
    + destruct (isinstance_OutOfMemoryError e) eqn:He.
      * destruct (Z.eq_dec b 1) as [->|Hb].
        -- rewrite (oom_safe_fuel_floor env fuel _ _ _ _ _ _ Hgen He) in Hrun.
           discriminate.
        -- rewrite (oom_safe_fuel_retry env fuel _ _ _ _ _ _ _ Hgen He Hb) in Hrun.
           destruct (IH _ _ _ _ _ _ _ _ _ Hrun) as [Hpos Hneg]. split.
           ++ intros H1. pose proof (new_batch_size_bounds b ltac:(lia)). lia.
           ++ intros H0. rewrite (new_batch_size_nonpositive b H0) in Hpos.
              right. lia.
      * rewrite (oom_safe_fuel_other env fuel _ _ _ _ _ _ _ Hgen He) in Hrun.
        discriminate.
Qed.

(** X5. The batch size that [oom_safe_batch_generation] returns with the
    output is at least 1 and at most the batch size it was given, when that
    one is at least 1. *)
Theorem oom_safe_effective_size input config criteria (b : Z) kwargs st st'
    (out : Tensor) (b' : Z) :
  oom_safe_batch_generation input config criteria b kwargs st = (st', Ok (out, b')) ->
  1 <= b ->
  1 <= b' <= b.
Proof.
  intros Hrun Hb.
  pose proof (oom_safe_unfold env _ input config criteria b kwargs st (enough_depth b))
    as Hfuel.
  rewrite Hrun in Hfuel.
  exact (proj1 (oom_safe_fuel_size _ _ _ _ _ _ _ _ _ _ Hfuel) Hb).
Qed.

End OomSafeRuns.

Lemma oom_safe_effective_size_witness :
  1 <= 6 <= 10.
Proof.
  apply (oom_safe_effective_size (Demo.env 7 0) [[1; 2; 3]] ∅ None 10 tt (Demo.start 7 0)
           (after (Demo.start 7 0) (retry_block 10 ++ retry_block 8 ++ [Generate 6]))
           (repeat [1; 2; 3; 7] 6) 6);
    [vm_compute; reflexivity | lia].
Defined.

(** ** Text generation *)

Section GenerateTextFacts.

Context (env : Env) (self : HFModel).

Implicit Types (st : State env) (config : gmap string pyval)
  (criteria : option (list (Criteria env))) (kwargs : Kwargs env)
  (parser : option (Parser env)).

Lemma after_nil st : after st [] = st.
Proof. destruct st. unfold after. simpl. rewrite app_nil_r. reflexivity. Qed.

Lemma after_app st (evs evs' : list event) :
  after (after st evs) evs' = after st (evs ++ evs').
Proof. unfold after. simpl. rewrite <- app_assoc. reflexivity. Qed.

Lemma bind_Ok {A B} (c : M env A) (k : A -> M env B) st st' (b : B) :
  bind c k st = (st', Ok b) ->
  exists a st1, c st = (st1, Ok a) /\ k a st1 = (st', Ok b).
Proof.
  unfold bind. destruct (c st) as [st1 [a|e]]; [eauto | discriminate].
Qed.

Lemma seeding_step (seed : option Z) st :
  match seed with Some seed => emit (SetAllSeeds seed) | None => ret tt end st
  = (after st (seeding seed), Ok tt).
Proof. destruct seed; simpl; [reflexivity|]. unfold ret. rewrite after_nil. reflexivity. Qed.

(** [generate_text] up to the point where the count is fixed. *)
Lemma generate_text_unfold
    (prompt model_context infill_suffix system_prompt prompt_template_mode : string)
    (max_new_tokens min_new_tokens : Z) (do_sample : bool) (top_k top_p : pyval)
    (temperature : Q) (num_return_sequences : Z) (batch_size seed : option Z)
    (stopping_patterns : stopping_patterns_t) parser
    (truncate_prompt_from_output post_process_output : bool) kwargs st config :
  create_generation_config (env := env) self max_new_tokens min_new_tokens do_sample
    top_k top_p temperature = Ok config ->
  generate_text self prompt model_context infill_suffix system_prompt prompt_template_mode
    max_new_tokens min_new_tokens do_sample top_k top_p temperature num_return_sequences
    batch_size seed stopping_patterns parser truncate_prompt_from_output
    post_process_output kwargs st
  = generate_text_body self config
      (effective_count do_sample temperature num_return_sequences)
      prompt model_context infill_suffix system_prompt prompt_template_mode max_new_tokens
      batch_size stopping_patterns parser truncate_prompt_from_output post_process_output
      kwargs
      (after st (seeding seed ++ advisory do_sample temperature num_return_sequences)).
Proof.
  intros Hcfg.
  pose proof (create_generation_config_do_sample env self _ _ _ _ _ _ _ Hcfg) as Hds.
  unfold generate_text. unfold bind at 1. rewrite seeding_step.
  unfold bind at 1. unfold lift at 1. rewrite Hcfg.
  unfold effective_count, advisory, collapses.
  destruct (num_return_sequences >? 1); simpl andb.
  - unfold bind at 1. unfold bind at 1. unfold lift at 1. unfold getattr. rewrite Hds.
    simpl truthy. destruct (sampling_enabled do_sample temperature); simpl negb.
    + unfold ret. rewrite app_nil_r. reflexivity.
    + unfold bind at 1. unfold emit, ret. simpl. rewrite <- after_app. reflexivity.
  - unfold bind at 1. unfold ret. rewrite app_nil_r. reflexivity.
Qed.

(** The run of [generate_text] when the generation config cannot be built. *)
Lemma generate_text_config_error_run
    (prompt model_context infill_suffix system_prompt prompt_template_mode : string)
    (max_new_tokens min_new_tokens : Z) (do_sample : bool) (top_k top_p : pyval)
    (temperature : Q) (num_return_sequences : Z) (batch_size seed : option Z)
    (stopping_patterns : stopping_patterns_t) parser
    (truncate_prompt_from_output post_process_output : bool) kwargs st (e : exn) :
  create_generation_config (env := env) self max_new_tokens min_new_tokens do_sample
    top_k top_p temperature = Raise e ->
  generate_text self prompt model_context infill_suffix system_prompt prompt_template_mode
    max_new_tokens min_new_tokens do_sample top_k top_p temperature num_return_sequences
    batch_size seed stopping_patterns parser truncate_prompt_from_output
    post_process_output kwargs st
  = (after st (seeding seed), Raise e).
Proof.
  intros Hcfg. unfold generate_text. unfold bind at 1. rewrite seeding_step.
  unfold bind at 1. unfold lift at 1. rewrite Hcfg. reflexivity.
Qed.

(** X8. When the generation config cannot be built, [generate_text] raises
    the error of [create_generation_config] after at most the seeding: the
    prompt is not formatted, the model is not called and the prompt template
    is as it was. *)
Theorem generate_text_config_error
    (prompt model_context infill_suffix system_prompt prompt_template_mode : string)
    (max_new_tokens min_new_tokens : Z) (do_sample : bool) (top_k top_p : pyval)
    (temperature : Q) (num_return_sequences : Z) (batch_size seed : option Z)
    (stopping_patterns : stopping_patterns_t) parser
    (truncate_prompt_from_output post_process_output : bool) kwargs st (e : exn) :
  create_generation_config (env := env) self max_new_tokens min_new_tokens do_sample
    top_k top_p temperature = Raise e ->
  generate_text self prompt model_context infill_suffix system_prompt prompt_template_mode
    max_new_tokens min_new_tokens do_sample top_k top_p temperature num_return_sequences
    batch_size seed stopping_patterns parser truncate_prompt_from_output
    post_process_output kwargs st
  = (after st (seeding seed), Raise e).
Proof.
  intros Hcfg. unfold generate_text. unfold bind at 1. rewrite seeding_step.
  unfold bind at 1. unfold lift at 1. rewrite Hcfg. reflexivity.
Qed.

(** C7. A request for more than one sequence with sampling disabled (by the
    flag or by a temperature of 0) emits the advisory warning once, right
    after the seeding, and then runs as a request for exactly one sequence;
    any other request emits no such warning and keeps its count. *)
Theorem generate_text_collapse
    (prompt model_context infill_suffix system_prompt prompt_template_mode : string)
    (max_new_tokens min_new_tokens : Z) (do_sample : bool) (top_k top_p : pyval)
    (temperature : Q) (num_return_sequences : Z) (batch_size seed : option Z)
    (stopping_patterns : stopping_patterns_t) parser
    (truncate_prompt_from_output post_process_output : bool) kwargs st config :
  create_generation_config (env := env) self max_new_tokens min_new_tokens do_sample
    top_k top_p temperature = Ok config ->
  let run :=
    generate_text self prompt model_context infill_suffix system_prompt
      prompt_template_mode max_new_tokens min_new_tokens do_sample top_k top_p temperature
      num_return_sequences batch_size seed stopping_patterns parser
      truncate_prompt_from_output post_process_output kwargs st in
  let body n st :=
    generate_text_body self config n prompt model_context infill_suffix system_prompt
      prompt_template_mode max_new_tokens batch_size stopping_patterns parser
      truncate_prompt_from_output post_process_output kwargs st in
  (1 < num_return_sequences ->
   do_sample = false \/ Qeq_bool temperature 0 = true ->
   run = body 1 (after st (seeding seed ++ [Warn GreedyMultipleSequences])))
  /\ (num_return_sequences <= 1 \/ (do_sample = true /\ Qeq_bool temperature 0 = false) ->
      run = body num_return_sequences (after st (seeding seed))).
Proof.
  intros Hcfg run body. subst run body. cbv beta.
  rewrite (generate_text_unfold _ _ _ _ _ _ _ _ _ _ _ _ _ _ _ _ _ _ _ _ _ Hcfg).
  unfold effective_count, advisory, collapses, sampling_enabled. split.
  - intros HN Hoff. replace (num_return_sequences >? 1) with true
      by (symmetry; apply Z.gtb_lt; lia).
    destruct Hoff as [-> | ->].
    + destruct (Qeq_bool temperature 0); reflexivity.
    + reflexivity.
  - intros [HN | [-> ->]].
    + replace (num_return_sequences >? 1) with false
        by (symmetry; rewrite Z.gtb_ltb; apply Z.ltb_ge; lia).
      simpl. rewrite app_nil_r. reflexivity.
    + rewrite andb_false_r. rewrite app_nil_r. reflexivity.
Qed.

(** [format_prompt] adds nothing to the trace, whatever its outcome. *)
Lemma format_prompt_events
    (prompt model_context infill_suffix system_prompt prompt_template_mode : string)
    st st' (r : result string) :
  format_prompt prompt model_context infill_suffix system_prompt prompt_template_mode st
    = (st', r) ->
  events st' = events st.
Proof.
  unfold format_prompt, bind, read_mode, call_set_mode, call_get_prompt, ret. simpl.
  destruct (set_mode env (prompt_template st) prompt_template_mode) as [t1 [[]|e1]];
    simpl; [|intros H; inversion H; reflexivity].
  destruct (get_prompt env t1 prompt model_context infill_suffix system_prompt)
    as [t2 [s|e2]]; simpl; [|intros H; inversion H; reflexivity].
  destruct (set_mode env t2 (template_mode env (prompt_template st))) as [t3 [[]|e3]];
    simpl; intros H; inversion H; reflexivity.
Qed.

(** The calls of the loop of lines 481-506 after its first round. *)
Lemma generation_loop_later (batch_sizes : list Z) :
  forall (i : nat) (first_output input : Tensor) (input_length : nat) config criteria
         (stopping_patterns : stopping_patterns_t) parser
         (truncate_prompt_from_output post_process_output : bool) (original_prompt : string)
         kwargs (generated_text : list string) st st' (texts : list string),
    i <> 0%nat ->
    generation_loop self i batch_sizes first_output input input_length config criteria
      stopping_patterns parser truncate_prompt_from_output post_process_output
      original_prompt kwargs generated_text st = (st', Ok texts) ->
    st' = after st (map Generate batch_sizes).
Proof.
  induction batch_sizes as [|size rest IH];
    intros i first_output input input_length config criteria stopping_patterns parser
           truncate_prompt_from_output post_process_output original_prompt kwargs
           generated_text st st' texts Hi Hrun.
  - simpl in Hrun. unfold ret in Hrun. inversion Hrun. rewrite after_nil. reflexivity.
  - simpl in Hrun. apply bind_Ok in Hrun. destruct Hrun as (outputs & st1 & Hcall & Hrest).
    destruct (Nat.eqb_spec i 0) as [->|_]; [congruence|].
    unfold call_generate in Hcall. inversion Hcall; subst st1.
    apply IH in Hrest; [|discriminate].
    rewrite Hrest. fold (after st [Generate size]). rewrite after_app. reflexivity.
Qed.

(** The calls of the whole loop: the first batch is not generated again. *)
Lemma generation_loop_calls (batch_sizes : list Z) (first_output input : Tensor)
    (input_length : nat) config criteria (stopping_patterns : stopping_patterns_t) parser
    (truncate_prompt_from_output post_process_output : bool) (original_prompt : string)
    kwargs st st' (texts : list string) :
  generation_loop self 0 batch_sizes first_output input input_length config criteria
    stopping_patterns parser truncate_prompt_from_output post_process_output
    original_prompt kwargs [] st = (st', Ok texts) ->
  st' = after st (map Generate (tail batch_sizes)).
Proof.
  destruct batch_sizes as [|size rest]; intros Hrun.
  - simpl in Hrun. unfold ret in Hrun. inversion Hrun. simpl. rewrite after_nil. reflexivity.
  - simpl in Hrun. apply bind_Ok in Hrun. destruct Hrun as (outputs & st1 & Hcall & Hrest).
    unfold ret in Hcall. inversion Hcall; subst st1.
    apply generation_loop_later in Hrest; [exact Hrest | discriminate].
Qed.

(** What a successful run of the body of [generate_text] went through. *)
Lemma generate_text_body_Ok config (n : Z)
    (prompt model_context infill_suffix system_prompt prompt_template_mode : string)
    (max_new_tokens : Z) (batch_size : option Z) (stopping_patterns : stopping_patterns_t)
    parser (truncate_prompt_from_output post_process_output : bool) kwargs st st'
    (v : generated) :
  generate_text_body self config n prompt model_context infill_suffix system_prompt
    prompt_template_mode max_new_tokens batch_size stopping_patterns parser
    truncate_prompt_from_output post_process_output kwargs st = (st', Ok v) ->
  exists (formatted : string) st1 (b0 : Z) (first_output : Tensor) (b_eff : Z) st2
         (plan : list Z) (texts : list string),
    let input := tokenizer_encode env formatted in
    let made :=
      create_stopping_criteria self (Z.of_nat (length input)) stopping_patterns parser in
    let original_prompt :=
      if String.eqb infill_suffix "" && String.eqb system_prompt ""
      then (prompt ++ model_context)%string else formatted in
    format_prompt prompt model_context infill_suffix system_prompt prompt_template_mode st
      = (st1, Ok formatted)
    /\ match batch_size with
       | Some b => b0 = b
       | None =>
           infer_best_batch_size (env := env) self (Z.of_nat (length input))
             max_new_tokens n = Ok b0
       end
    /\ oom_safe_batch_generation [input] config made.1 (Z.min b0 n) kwargs st1
       = (st2, Ok (first_output, b_eff))
    /\ batch_plan n b_eff = Ok plan
    /\ generation_loop self 0 plan first_output [input] (length input) config made.1
         made.2 parser truncate_prompt_from_output post_process_output original_prompt
         kwargs [] st2 = (st', Ok texts)
    /\ ((n = 1 /\ exists s rest, texts = s :: rest /\ v = Str s)
        \/ (n <> 1 /\ v = StrList texts)).
Proof.
  unfold generate_text_body. intros Hrun.
  apply bind_Ok in Hrun. destruct Hrun as (formatted & st1 & Hfmt & Hrun).
  destruct (create_stopping_criteria self
              (Z.of_nat (length (tokenizer_encode env formatted))) stopping_patterns parser)
    as [criteria patterns] eqn:Hcrit.
  apply bind_Ok in Hrun. destruct Hrun as (b0 & st1' & Hsize & Hrun).
  assert (Hb0 : st1' = st1 /\
                match batch_size with
                | Some b => b0 = b
                | None =>
                    infer_best_batch_size (env := env) self
                      (Z.of_nat (length (tokenizer_encode env formatted))) max_new_tokens n
                    = Ok b0
                end).
  { destruct batch_size as [b|].
    - unfold ret in Hsize. inversion Hsize. auto.
    - unfold lift in Hsize. inversion Hsize. auto. }
  destruct Hb0 as [-> Hb0].
  apply bind_Ok in Hrun. destruct Hrun as ([first_output b_eff] & st2 & Hoom & Hrun).
  apply bind_Ok in Hrun. destruct Hrun as (plan & st2' & Hplan & Hrun).
  unfold lift in Hplan. inversion Hplan as [[Hst2 Hplan']]. subst st2'. clear Hplan.
  apply bind_Ok in Hrun. destruct Hrun as (texts & st3 & Hloop & Hend).
  exists formatted, st1, b0, first_output, b_eff, st2, plan, texts.
  cbv zeta. rewrite Hcrit. simpl fst. simpl snd.
  assert (Hfinal : st3 = st'
                   /\ ((n = 1 /\ exists s rest, texts = s :: rest /\ v = Str s)
                       \/ (n <> 1 /\ v = StrList texts))).
  { destruct (Z.eqb_spec n 1) as [Hn|Hn].
    - destruct texts as [|s rest]; unfold raise, ret in Hend; inversion Hend; subst.
      split; [reflexivity|]. left. split; [reflexivity|]. eauto.
    - unfold ret in Hend. inversion Hend; subst.
      split; [reflexivity|]. right. auto. }
  destruct Hfinal as [<- Hfinal].
  repeat (split; [assumption|]). exact Hfinal.
Qed.

Lemma effective_count_one (do_sample : bool) (temperature : Q) (n : Z) :
  effective_count do_sample temperature n = 1
  <-> n = 1 \/ (1 < n /\ (do_sample = false \/ Qeq_bool temperature 0 = true)).
Proof.
  unfold effective_count, collapses, sampling_enabled.
  destruct (Z.gtb_spec n 1) as [Hgt|Hle]; simpl.
  - destruct (Qeq_bool temperature 0); simpl.
    + split; [intros _; right; auto | reflexivity].
    + destruct do_sample; simpl.
      * split; [intros ->; lia | intros [->|[_ [H|H]]]; [lia | discriminate | discriminate]].
      * split; [intros _; right; auto | reflexivity].
  - split; [auto | intros [H|[H _]]; [exact H | lia]].
Qed.

(** A run of [generate_text] that returns went through a successful run of
    the body, at the effective count. *)
Lemma generate_text_Ok
    (prompt model_context infill_suffix system_prompt prompt_template_mode : string)
    (max_new_tokens min_new_tokens : Z) (do_sample : bool) (top_k top_p : pyval)
    (temperature : Q) (num_return_sequences : Z) (batch_size seed : option Z)
    (stopping_patterns : stopping_patterns_t) parser
    (truncate_prompt_from_output post_process_output : bool) kwargs st st' (v : generated) :
  generate_text self prompt model_context infill_suffix system_prompt prompt_template_mode
    max_new_tokens min_new_tokens do_sample top_k top_p temperature num_return_sequences
    batch_size seed stopping_patterns parser truncate_prompt_from_output
    post_process_output kwargs st = (st', Ok v) ->
  exists config,
    create_generation_config (env := env) self max_new_tokens min_new_tokens do_sample
      top_k top_p temperature = Ok config
    /\ generate_text_body self config
         (effective_count do_sample temperature num_return_sequences)
         prompt model_context infill_suffix system_prompt prompt_template_mode
         max_new_tokens batch_size stopping_patterns parser truncate_prompt_from_output
         post_process_output kwargs
         (after st (seeding seed ++ advisory do_sample temperature num_return_sequences))
       = (st', Ok v).
Proof.
  intros Hrun.
  destruct (create_generation_config (env := env) self max_new_tokens min_new_tokens
              do_sample top_k top_p temperature) as [config|e] eqn:Hcfg.
  - exists config. split; [reflexivity|].
    rewrite <- (generate_text_unfold _ _ _ _ _ _ _ _ _ _ _ _ _ _ _ _ _ _ _ _ _ Hcfg).
    exact Hrun.
  - rewrite (generate_text_config_error_run _ _ _ _ _ _ _ _ _ _ _ _ _ _ _ _ _ _ _ _ _ Hcfg)
      in Hrun.
    discriminate.
Qed.

(** C8. When [generate_text] returns, it returns a single string exactly
    when the count after the collapse is 1, that is, when one sequence was
    requested or when several were requested with sampling disabled; in
    every other case it returns a list. *)
Theorem generate_text_return_shape
    (prompt model_context infill_suffix system_prompt prompt_template_mode : string)
    (max_new_tokens min_new_tokens : Z) (do_sample : bool) (top_k top_p : pyval)
    (temperature : Q) (num_return_sequences : Z) (batch_size seed : option Z)
    (stopping_patterns : stopping_patterns_t) parser
    (truncate_prompt_from_output post_process_output : bool) kwargs st st' (v : generated) :
  generate_text self prompt model_context infill_suffix system_prompt prompt_template_mode
    max_new_tokens min_new_tokens do_sample top_k top_p temperature num_return_sequences
    batch_size seed stopping_patterns parser truncate_prompt_from_output
    post_process_output kwargs st = (st', Ok v) ->
  let single :=
    num_return_sequences = 1
    \/ (1 < num_return_sequences /\ (do_sample = false \/ Qeq_bool temperature 0 = true)) in
  ((exists s, v = Str s) <-> single) /\ ((exists l, v = StrList l) <-> ~ single).
Proof.
  intros Hrun single. subst single. rewrite <- effective_count_one.
  apply generate_text_Ok in Hrun. destruct Hrun as (config & _ & Hbody).
  apply generate_text_body_Ok in Hbody.
  destruct Hbody as (f & st1 & b0 & first & b_eff & st2 & plan & texts & Hbody).
  cbv zeta in Hbody. destruct Hbody as (_ & _ & _ & _ & _ & Hshape).
  destruct Hshape as [(Hone & s & rest & _ & ->) | (Hmany & ->)].
  - split; split; try (intros; eauto; fail); try tauto.
    + intros [l Hl]. discriminate Hl.
  - split; split; try tauto.
    + intros [s Hs]. discriminate Hs.
    + intros _. eauto.
Qed.

(** The mode after a successful [format_prompt]. *)
Lemma format_prompt_mode
    (prompt model_context infill_suffix system_prompt prompt_template_mode : string)
    st st' (formatted : string) :
  set_mode_sets env ->
  format_prompt prompt model_context infill_suffix system_prompt prompt_template_mode st
    = (st', Ok formatted) ->
  template_mode env (prompt_template st') = template_mode env (prompt_template st).
Proof.
  intros Hset. unfold format_prompt, bind, read_mode, call_set_mode, call_get_prompt, ret.
  simpl.
  destruct (set_mode env (prompt_template st) prompt_template_mode) as [t1 [[]|e1]];
    simpl; [|discriminate].
  destruct (get_prompt env t1 prompt model_context infill_suffix system_prompt)
    as [t2 [s|e2]]; simpl; [|discriminate].
  destruct (set_mode env t2 (template_mode env (prompt_template st)))
    as [t3 [[]|e3]] eqn:H3; simpl; [|discriminate].
  intros Heq. inversion Heq; subst. simpl. exact (Hset _ _ _ H3).
Qed.

(** A successful run of the executor. *)
Lemma oom_safe_run_Ok (input : Tensor) config criteria (b : Z) kwargs st st'
    (out : Tensor) (b' : Z) :
  oom_safe_batch_generation input config criteria b kwargs st = (st', Ok (out, b')) ->
  exists sizes,
    st' = after st (flat_map retry_block sizes ++ [Generate b'])
    /\ model_generate env (events st ++ flat_map retry_block sizes) input config criteria
         b' kwargs = Ok out
    /\ (1 <= b -> 1 <= b' <= b)
    /\ (b <= 0 -> b' = b \/ b' = 1).
Proof.
  intros Hrun.
  pose proof (oom_safe_unfold env _ input config criteria b kwargs st (enough_depth b))
    as Hfuel.
  rewrite Hrun in Hfuel.
  destruct (oom_safe_fuel_trace env _ _ _ _ _ _ _ _ _ Hfuel)
    as (sizes & last & Hst & _ & _ & _ & Hok).
  destruct (Hok out b' eq_refl) as [-> Hgen].
  destruct (oom_safe_fuel_size env _ _ _ _ _ _ _ _ _ _ Hfuel) as [Hpos Hneg].
  exists sizes. auto.
Qed.

(** What a plan that was produced for a positive count tells. *)
Lemma batch_plan_Ok (N B : Z) (plan : list Z) :
  batch_plan N B = Ok plan ->
  1 <= N ->
  1 <= B
  /\ sum plan = N
  /\ Forall (fun size => 1 <= size <= Z.min B N) plan
  /\ head plan = Some (Z.min B N).
Proof.
  unfold batch_plan. intros Hplan HN.
  destruct (N >? B) eqn:Hgt.
  - apply Z.gtb_lt in Hgt.
    destruct (Z.eqb_spec B 0) as [->|HB0]; [discriminate|].
    destruct (Z.eqb_spec
                (sum (if negb (N mod B =? 0) then replicate_py B (N / B) ++ [N mod B]
                      else replicate_py B (N / B))) N) as [Hsum|Hsum]; [|discriminate].
    inversion Hplan; subst plan; clear Hplan.
    destruct (Z_lt_le_dec B 0) as [Hneg|Hpos].
    + exfalso.
      pose proof (Z.mod_neg_bound N B Hneg) as Hr.
      pose proof (Z.div_mod N B HB0) as Hdm.
      assert (Hq : N / B < 0) by nia.
      unfold replicate_py in Hsum.
      replace (Z.to_nat (N / B)) with 0%nat in Hsum by lia.
      simpl in Hsum. destruct (negb (N mod B =? 0)); simpl in Hsum; lia.
    + assert (HB : 1 <= B) by lia.
      assert (Hq : 1 <= N / B) by (apply Z.div_le_lower_bound; lia).
      pose proof (Z.mod_pos_bound N B ltac:(lia)) as Hr.
      rewrite Z.min_l by lia.
      split; [exact HB|]. split; [exact Hsum|].
      assert (Hhead : head (replicate_py B (N / B)) = Some B).
      { unfold replicate_py. destruct (Z.to_nat (N / B)) eqn:Hn; [lia | reflexivity]. }
      assert (Hall : Forall (fun size => 1 <= size <= B) (replicate_py B (N / B))).
      { eapply Forall_impl; [apply Forall_repeat_same|]. simpl. intros; lia. }
      destruct (negb (N mod B =? 0)) eqn:Hrem.
      * apply negb_true_iff, Z.eqb_neq in Hrem. split.
        -- apply Forall_app. split; [exact Hall|]. constructor; [lia | constructor].
        -- destruct (replicate_py B (N / B)); [discriminate | exact Hhead].
      * split; [exact Hall | exact Hhead].
  - rewrite Z.gtb_ltb in Hgt. apply Z.ltb_ge in Hgt.
    inversion Hplan; subst plan. rewrite Z.min_r by lia.
    split; [lia|]. split; [simpl; lia|]. split; [|reflexivity].
    constructor; [lia | constructor].
Qed.

(** The texts that the loop gathers after its first round. *)
Lemma generation_loop_later_length (batch_sizes : list Z) :
  generate_rows env ->
  decode_rows env ->
  forall (i : nat) (first_output input : Tensor) (input_length : nat) config criteria
         (stopping_patterns : stopping_patterns_t) parser
         (truncate_prompt_from_output post_process_output : bool) (original_prompt : string)
         kwargs (generated_text : list string) st st' (texts : list string),
    i <> 0%nat ->
    Forall (fun size => 0 <= size) batch_sizes ->
    generation_loop self i batch_sizes first_output input input_length config criteria
      stopping_patterns parser truncate_prompt_from_output post_process_output
      original_prompt kwargs generated_text st = (st', Ok texts) ->
    length texts = (length generated_text + Z.to_nat (sum batch_sizes))%nat.
Proof.
  intros Hrows [Hpost Hdec].
  induction batch_sizes as [|size rest IH];
    intros i first_output input input_length config criteria stopping_patterns parser
           truncate_prompt_from_output post_process_output original_prompt kwargs
           generated_text st st' texts Hi Hpos Hrun.
  - simpl in Hrun. unfold ret in Hrun. inversion Hrun. simpl. lia.
  - simpl in Hrun. apply bind_Ok in Hrun. destruct Hrun as (outputs & st1 & Hcall & Hrest).
    destruct (Nat.eqb_spec i 0) as [->|_]; [congruence|].
    unfold call_generate in Hcall. inversion Hcall as [[Hst Hgen]]. clear Hcall.
    apply Hrows in Hgen.
    inversion Hpos as [|? ? Hsize Hpos']; subst.
    apply IH in Hrest; [|discriminate | exact Hpos'].
    rewrite Hrest, length_app.
    assert (Hsum : 0 <= sum rest).
    { clear -Hpos'. induction Hpos'; simpl; lia. }
    assert (Hbatch :
      length (if negb truncate_prompt_from_output
              then map (fun sequence => (original_prompt ++ sequence)%string)
                     (if post_process_output
                      then post_process_sequences env (map (drop input_length) outputs)
                             stopping_patterns (extra_eos_tokens self) parser
                      else tokenizer_batch_decode env (map (drop input_length) outputs))
              else if post_process_output
                   then post_process_sequences env (map (drop input_length) outputs)
                          stopping_patterns (extra_eos_tokens self) parser
                   else tokenizer_batch_decode env (map (drop input_length) outputs))
      = Z.to_nat size).
    { destruct truncate_prompt_from_output, post_process_output; simpl;
        rewrite ?length_map, ?Hpost, ?Hdec, ?length_map; exact Hgen. }
    rewrite Hbatch. simpl sum. lia.
Qed.

(** The texts of the whole loop. *)
Lemma generation_loop_length (batch_sizes : list Z) (first_output input : Tensor)
    (input_length : nat) config criteria (stopping_patterns : stopping_patterns_t) parser
    (truncate_prompt_from_output post_process_output : bool) (original_prompt : string)
    kwargs st st' (texts : list string) (size : Z) :
  generate_rows env ->
  decode_rows env ->
  head batch_sizes = Some size ->
  length first_output = Z.to_nat size ->
  Forall (fun size => 0 <= size) batch_sizes ->
  generation_loop self 0 batch_sizes first_output input input_length config criteria
    stopping_patterns parser truncate_prompt_from_output post_process_output
    original_prompt kwargs [] st = (st', Ok texts) ->
  length texts = Z.to_nat (sum batch_sizes).
Proof.
  intros Hrows Hdecode Hhead Hfirst Hpos Hrun.
  destruct batch_sizes as [|size' rest]; [discriminate|].
  simpl in Hhead. inversion Hhead; subst size'.
  simpl in Hrun. apply bind_Ok in Hrun. destruct Hrun as (outputs & st1 & Hcall & Hrest).
  unfold ret in Hcall. inversion Hcall; subst st1 outputs. clear Hcall.
  inversion Hpos as [|? ? Hsize Hpos']; subst.
  apply (generation_loop_later_length rest Hrows Hdecode) in Hrest;
    [|discriminate | exact Hpos'].
  rewrite Hrest. destruct Hdecode as [Hpost Hdec].
  assert (Hsum : 0 <= sum rest).
  { clear -Hpos'. induction Hpos'; simpl; lia. }
  simpl sum.
  destruct truncate_prompt_from_output, post_process_output; simpl;
    rewrite ?length_map, ?Hpost, ?Hdec, ?length_map, Hfirst; lia.
Qed.

(** X11. When [generate_text] returns and the template's [set_mode] is a
    setter, the mode of the prompt template is the one it was before the
    call. *)
Theorem generate_text_restores_mode
    (prompt model_context infill_suffix system_prompt prompt_template_mode : string)
    (max_new_tokens min_new_tokens : Z) (do_sample : bool) (top_k top_p : pyval)
    (temperature : Q) (num_return_sequences : Z) (batch_size seed : option Z)
    (stopping_patterns : stopping_patterns_t) parser
    (truncate_prompt_from_output post_process_output : bool) kwargs st st' (v : generated) :
  set_mode_sets env ->
  generate_text self prompt model_context infill_suffix system_prompt prompt_template_mode
    max_new_tokens min_new_tokens do_sample top_k top_p temperature num_return_sequences
    batch_size seed stopping_patterns parser truncate_prompt_from_output
    post_process_output kwargs st = (st', Ok v) ->
  template_mode env (prompt_template st') = template_mode env (prompt_template st).
Proof.
  intros Hset Hrun.
  apply generate_text_Ok in Hrun. destruct Hrun as (config & _ & Hbody).
  apply generate_text_body_Ok in Hbody.
  destruct Hbody as (f & st1 & b0 & first & b_eff & st2 & plan & texts & Hbody).
  cbv zeta in Hbody. destruct Hbody as (Hfmt & _ & Hoom & _ & Hloop & _).
  apply (format_prompt_mode _ _ _ _ _ _ _ _ Hset) in Hfmt.
  apply oom_safe_run_Ok in Hoom. destruct Hoom as (sizes & -> & _).
  apply generation_loop_calls in Hloop. subst st'.
  simpl. exact Hfmt.
Qed.

(** X12. When [generate_text] returns for an effective count of at least
    1, its trace is: the seeding, the advisory warning if there is one, the
    failed attempts of the first batch, and then one successful call to the
    model per entry of the batch plan, in order, where the first entry is
    the call whose output the executor returned.  The sizes of these
    successful calls add up to the effective count, each is between 1 and
    that count, and none exceeds a batch size that the caller passed. *)
Theorem generate_text_calls
    (prompt model_context infill_suffix system_prompt prompt_template_mode : string)
    (max_new_tokens min_new_tokens : Z) (do_sample : bool) (top_k top_p : pyval)
    (temperature : Q) (num_return_sequences : Z) (batch_size seed : option Z)
    (stopping_patterns : stopping_patterns_t) parser
    (truncate_prompt_from_output post_process_output : bool) kwargs st st' (v : generated) :
  let count := effective_count do_sample temperature num_return_sequences in
  1 <= count ->
  generate_text self prompt model_context infill_suffix system_prompt prompt_template_mode
    max_new_tokens min_new_tokens do_sample top_k top_p temperature num_return_sequences
    batch_size seed stopping_patterns parser truncate_prompt_from_output
    post_process_output kwargs st = (st', Ok v) ->
  exists sizes plan,
    events st'
    = events st ++ seeding seed ++ advisory do_sample temperature num_return_sequences
      ++ flat_map retry_block sizes ++ map Generate plan
    /\ sum plan = count
    /\ Forall (fun size => 1 <= size <= count) plan
    /\ (forall b, batch_size = Some b -> 1 <= b -> Forall (fun size => size <= b) plan).
Proof.
  intros count Hcount Hrun.
  apply generate_text_Ok in Hrun. destruct Hrun as (config & _ & Hbody). fold count in Hbody.
  apply generate_text_body_Ok in Hbody.
  destruct Hbody as (f & st1 & b0 & first & b_eff & st2 & plan & texts & Hbody).
  cbv zeta in Hbody. destruct Hbody as (Hfmt & Hb0 & Hoom & Hplan & Hloop & _).
  apply format_prompt_events in Hfmt.
  apply oom_safe_run_Ok in Hoom. destruct Hoom as (sizes & -> & _ & Hpos & Hneg).
  apply generation_loop_calls in Hloop. subst st'.
  destruct (batch_plan_Ok _ _ _ Hplan Hcount) as (Heff & Hsum & Hall & Hhead).
  exists sizes, plan.
  split; [|split; [exact Hsum|split]].
  - simpl. rewrite Hfmt. simpl.
    destruct plan as [|size rest]; [discriminate|].
    simpl in Hhead. inversion Hhead as [Hsize].
    assert (Hmin : Z.min b_eff count = b_eff).
    { destruct (Z_le_gt_dec 1 (Z.min b0 count)) as [H1|H0].
      - specialize (Hpos H1). lia.
      - destruct (Hneg ltac:(lia)) as [H|H]; lia. }
    rewrite Hmin in *. simpl.
    rewrite <- !app_assoc. reflexivity.
  - eapply Forall_impl; [exact Hall|]. simpl. intros; lia.
  - intros b -> Hb. subst b0.
    assert (Hle : b_eff <= b).
    { destruct (Z_le_gt_dec 1 (Z.min b count)) as [H1|H0].
      - specialize (Hpos H1). lia.
      - lia. }
    eapply Forall_impl; [exact Hall|]. simpl. intros; lia.
Qed.

(** X13. With a model that gives one row per requested sequence and a
    decoder that gives one text per row, a list that [generate_text] returns
    for an effective count of at least 1 has exactly that many texts. *)
Theorem generate_text_count
    (prompt model_context infill_suffix system_prompt prompt_template_mode : string)
    (max_new_tokens min_new_tokens : Z) (do_sample : bool) (top_k top_p : pyval)
    (temperature : Q) (num_return_sequences : Z) (batch_size seed : option Z)
    (stopping_patterns : stopping_patterns_t) parser
    (truncate_prompt_from_output post_process_output : bool) kwargs st st'
    (texts : list string) :
  let count := effective_count do_sample temperature num_return_sequences in
  generate_rows env ->
  decode_rows env ->
  1 <= count ->
  generate_text self prompt model_context infill_suffix system_prompt prompt_template_mode
    max_new_tokens min_new_tokens do_sample top_k top_p temperature num_return_sequences
    batch_size seed stopping_patterns parser truncate_prompt_from_output
    post_process_output kwargs st = (st', Ok (StrList texts)) ->
  length texts = Z.to_nat count.
Proof.
  intros count Hrows Hdecode Hcount Hrun.
  apply generate_text_Ok in Hrun. destruct Hrun as (config & _ & Hbody). fold count in Hbody.
  apply generate_text_body_Ok in Hbody.
  destruct Hbody as (f & st1 & b0 & first & b_eff & st2 & plan & texts' & Hbody).
  cbv zeta in Hbody. destruct Hbody as (_ & _ & Hoom & Hplan & Hloop & Hshape).
  destruct Hshape as [(_ & s & rest & _ & Hv) | (_ & Hv)]; [discriminate|].
  inversion Hv; subst texts'. clear Hv.
  apply oom_safe_run_Ok in Hoom. destruct Hoom as (sizes & _ & Hgen & Hpos & Hneg).
  apply Hrows in Hgen.
  destruct (batch_plan_Ok _ _ _ Hplan Hcount) as (Heff & Hsum & Hall & Hhead).
  assert (Hmin : Z.min b_eff count = b_eff).
  { destruct (Z_le_gt_dec 1 (Z.min b0 count)) as [H1|H0].
    - specialize (Hpos H1). lia.
    - destruct (Hneg ltac:(lia)) as [H|H]; lia. }
  rewrite Hmin in Hhead.
  rewrite <- Hsum.
  eapply generation_loop_length; try eassumption.
  eapply Forall_impl; [exact Hall|]. simpl. intros; lia.
Qed.

End GenerateTextFacts.

(** ** Runs on the concrete collaborators *)

(** Twenty sampled sequences at a requested batch size of 10 on a device
    that fits 7: the first batch fails at 10 and at 8 and succeeds at 6, and
    the remaining 14 sequences are generated as 6, 6 and 2. *)
Example demo_run_sampled :
  generate_text (env := Demo.env 7 0) (Demo.model "m" 7 7) "hi" "" "" "" "default" 60 5
    true (PInt 40) (PFloat (9 # 10)) (9 # 10) 20 (Some 10) (Some 3) SPNone None true true tt
    (Demo.start 7 0)
  = (after (Demo.start 7 0)
       (SetAllSeeds 3 :: retry_block 10 ++ retry_block 8 ++ map Generate [6; 6; 6; 2]),
     Ok (StrList (repeat "text"%string 20))).
Proof. vm_compute. reflexivity. Qed.

(** Two greedy sequences: the request is collapsed to one. *)
Example demo_run_greedy :
  generate_text (env := Demo.env 7 0) (Demo.model "m" 7 7) "hi" "" "" "" "chat" 60 5
    false (PInt 40) (PFloat (9 # 10)) (9 # 10) 2 (Some 10) None SPNone None true true tt
    (Demo.start 7 0)
  = (after (Demo.start 7 0) [Warn GreedyMultipleSequences; Generate 1],
     Ok (Str "text")).
Proof. vm_compute. reflexivity. Qed.

(** The config of a greedy request. *)
Lemma create_generation_config_greedy (env : Env) (self : HFModel)
    (max_new min_new : Z) (do_sample : bool) (top_k top_p : pyval) (temperature : Q)
    (eos bos : pyval) :
  resolve_token_id self eos_token_id = Some eos ->
  resolve_token_id self bos_token_id = Some bos ->
  sampling_enabled do_sample temperature = false ->
  create_generation_config (env := env) self max_new min_new do_sample top_k top_p
    temperature
  = Ok (GenerationConfig (env := env)
          (init_kwargs eos bos (default eos (resolve_token_id self pad_token_id))
             max_new min_new false)).
Proof.
  intros Heos Hbos Hoff. unfold create_generation_config.
  fold (sampling_enabled do_sample temperature). rewrite Heos, Hbos, Hoff.
  destruct (resolve_token_id self pad_token_id); reflexivity.
Qed.

Lemma generate_text_config_error_witness :
  generate_text (env := Demo.env 7 0) model_without_ids "hi" "" "" "" "default" 60 5
    true (PInt 40) (PFloat (9 # 10)) (9 # 10) 20 (Some 10) (Some 3) SPNone None true true tt
    (Demo.start 7 0)
  = (after (Demo.start 7 0) [SetAllSeeds 3],
     Raise (RuntimeError "Impossible to find the `eos_token_id`.")).
Proof.
  apply (generate_text_config_error (Demo.env 7 0) model_without_ids). reflexivity.
Defined.

Lemma generate_text_collapse_witness :
  generate_text (env := Demo.env 7 0) (Demo.model "m" 7 7) "hi" "" "" "" "chat" 60 5
    false (PInt 40) (PFloat (9 # 10)) (9 # 10) 2 (Some 10) None SPNone None true true tt
    (Demo.start 7 0)
  = generate_text_body (env := Demo.env 7 0) (Demo.model "m" 7 7)
      (GenerationConfig (env := Demo.env 7 0)
         (init_kwargs (PInt 2) (PInt 1) (PInt 2) 60 5 false))
      1 "hi" "" "" "" "chat" 60 (Some 10) SPNone None true true tt
      (after (Demo.start 7 0) [Warn GreedyMultipleSequences]).
Proof.
  apply (proj1 (generate_text_collapse (Demo.env 7 0) (Demo.model "m" 7 7) "hi" "" "" ""
                  "chat" 60 5 false (PInt 40) (PFloat (9 # 10)) (9 # 10) 2 (Some 10) None
                  SPNone None true true tt (Demo.start 7 0) _
                  (create_generation_config_greedy (Demo.env 7 0) (Demo.model "m" 7 7)
                     60 5 false (PInt 40) (PFloat (9 # 10)) (9 # 10) (PInt 2) (PInt 1)
                     eq_refl eq_refl eq_refl)));
    [lia | left; reflexivity].
Defined.

Lemma generate_text_return_shape_witness :
  (2 = 1 \/ (1 < 2 /\ (false = false \/ Qeq_bool (9 # 10) 0 = true)))
  /\ ~ (20 = 1 \/ (1 < 20 /\ (true = false \/ Qeq_bool (9 # 10) 0 = true))).
Proof.
  split.
  - apply (proj1 (generate_text_return_shape _ _ _ _ _ _ _ _ _ _ _ _ _ _ _ _ _ _ _ _ _ _ _ _
                    demo_run_greedy)).
    eauto.
  - apply (proj2 (generate_text_return_shape _ _ _ _ _ _ _ _ _ _ _ _ _ _ _ _ _ _ _ _ _ _ _ _
                    demo_run_sampled)).
    eauto.
Defined.

(** A request for two sequences with sampling disabled returns a single
    string, not a list. *)
Lemma generate_text_return_shape_counterexample :
  (generate_text (env := Demo.env 7 0) (Demo.model "m" 7 7) "hi" "" "" "" "chat" 60 5
     false (PInt 40) (PFloat (9 # 10)) (9 # 10) 2 (Some 10) None SPNone None true true tt
     (Demo.start 7 0)).2
  = Ok (Str "text").
Proof. vm_compute. reflexivity. Qed.

Lemma demo_set_mode_sets (capacity : Z) (memory : Q) : set_mode_sets (Demo.env capacity memory).
Proof. intros t t' mode Heq. inversion Heq. reflexivity. Qed.

Lemma generate_text_restores_mode_witness :
  template_mode (Demo.env 7 0)
    (prompt_template (after (Demo.start 7 0) [Warn GreedyMultipleSequences; Generate 1]))
  = template_mode (Demo.env 7 0) (prompt_template (Demo.start 7 0)).
Proof.
  exact (generate_text_restores_mode _ _ _ _ _ _ _ _ _ _ _ _ _ _ _ _ _ _ _ _ _ _ _ _
           (demo_set_mode_sets 7 0) demo_run_greedy).
Defined.

Lemma generate_text_calls_witness :
  exists sizes plan,
    events (after (Demo.start 7 0)
              (SetAllSeeds 3 :: retry_block 10 ++ retry_block 8 ++ map Generate [6; 6; 6; 2]))
    = events (Demo.start 7 0) ++ seeding (Some 3) ++ advisory true (9 # 10) 20
      ++ flat_map retry_block sizes ++ map Generate plan
    /\ sum plan = effective_count true (9 # 10) 20
    /\ Forall (fun size => 1 <= size <= effective_count true (9 # 10) 20) plan
    /\ (forall b, Some 10 = Some b -> 1 <= b -> Forall (fun size => size <= b) plan).
Proof.
  assert (Hcount : 1 <= effective_count true (9 # 10) 20) by (vm_compute; discriminate).
  exact (generate_text_calls _ _ _ _ _ _ _ _ _ _ _ _ _ _ _ _ _ _ _ _ _ _ _ _
           Hcount demo_run_sampled).
Defined.

Lemma demo_generate_rows (capacity : Z) (memory : Q) : generate_rows (Demo.env capacity memory).
Proof.
  intros tr input config criteria n kwargs out. simpl.
  unfold Demo.generate_with_capacity. destruct (n >? capacity); [discriminate|].
  intros H. inversion H. apply repeat_length.
Qed.

Lemma demo_decode_rows (capacity : Z) (memory : Q) : decode_rows (Demo.env capacity memory).
Proof. split; intros; simpl; apply length_map. Qed.

Lemma generate_text_count_witness :
  length (repeat "text"%string 20) = Z.to_nat (effective_count true (9 # 10) 20).
Proof.
  assert (Hcount : 1 <= effective_count true (9 # 10) 20) by (vm_compute; discriminate).
  exact (generate_text_count _ _ _ _ _ _ _ _ _ _ _ _ _ _ _ _ _ _ _ _ _ _ _ _
           (demo_generate_rows 7 0) (demo_decode_rows 7 0) Hcount demo_run_sampled).
Defined.

(** ** The batch-size estimator *)

Section EstimatorFacts.

Context (env : Env) (self : HFModel).

Lemma heuristics_at_least_one (available_memory : Q) :
  1 <= infer_best_batch_size_by_heuristics self available_memory.
Proof. unfold infer_best_batch_size_by_heuristics. lia. Qed.

(** X14. Without a calibration file for the model and its precision
    category the estimator does not raise: it returns the heuristic estimate
    for the available memory, which is at least 1.  An error of
    [dtype_category] is not caught and is raised as it is. *)
Theorem infer_best_batch_size_without_file (input_size max_new_tokens num_return_sequences : Z) :
  (forall category,
     dtype_category self = Ok category ->
     load_footprint_file env (model_name self) category = None ->
     infer_best_batch_size (env := env) self input_size max_new_tokens num_return_sequences
     = Ok (infer_best_batch_size_by_heuristics self (available_memory (env := env) self))
     /\ 1 <= infer_best_batch_size_by_heuristics self (available_memory (env := env) self))
  /\ (forall e,
        dtype_category self = Raise e ->
        infer_best_batch_size (env := env) self input_size max_new_tokens
          num_return_sequences = Raise e).
Proof.
  unfold infer_best_batch_size. split.
  - intros category -> ->. split; [reflexivity | apply heuristics_at_least_one].
  - intros e ->. reflexivity.
Qed.

(** X15.  With a calibration file, a fit whose squared correlation
    coefficient is not at least 0.95 (a NaN coefficient included, as the
    regression gives for a degenerate table) makes the estimator fall back
    to the heuristic estimate, which is at least 1; an error raised by the
    regression is not caught. *)
Theorem infer_best_batch_size_poor_fit
    (input_size max_new_tokens num_return_sequences : Z) (category : string)
    (file : FootprintFile) :
  dtype_category self = Ok category ->
  load_footprint_file env (model_name self) category = Some file ->
  let sorted := sort_by_key (batch_footprint file) in
  let regression := linregress env (map fst sorted) (map snd sorted) in
  let estimate :=
    infer_best_batch_size (env := env) self input_size max_new_tokens num_return_sequences in
  let fallback :=
    infer_best_batch_size_by_heuristics self (available_memory (env := env) self) in
  (forall fit, regression = Ok fit ->
     SFleb (Float64.of_ratio (95 # 100)) (Float64.mul (rvalue fit) (rvalue fit)) = false ->
     estimate = Ok fallback /\ 1 <= fallback)
  /\ (forall fit, regression = Ok fit -> rvalue fit = S754_nan -> estimate = Ok fallback)
  /\ (forall e, regression = Raise e -> estimate = Raise e).
Proof.
  intros Hcategory Hfile sorted regression estimate fallback.
  assert (Hpoor : forall fit, regression = Ok fit ->
            SFleb (Float64.of_ratio (95 # 100)) (Float64.mul (rvalue fit) (rvalue fit)) = false ->
            estimate = Ok fallback).
  { intros fit Hfit Hr2. subst estimate regression sorted. unfold infer_best_batch_size.
    rewrite Hcategory, Hfile. cbv zeta. rewrite Hfit, Hr2. reflexivity. }
  split; [|split].
  - intros fit Hfit Hr2. split; [exact (Hpoor fit Hfit Hr2) | apply heuristics_at_least_one].
  - intros fit Hfit Hnan. apply (Hpoor fit Hfit). rewrite Hnan. reflexivity.
  - intros e Hraise. subst estimate regression sorted. unfold infer_best_batch_size.
    rewrite Hcategory, Hfile. cbv zeta. rewrite Hraise. reflexivity.
Qed.




End EstimatorFacts.

Lemma infer_best_batch_size_without_file_witness :
  infer_best_batch_size (env := Demo.env 7 (Demo.GiB 20)) (Demo.model "other" 7 7) 10 10 1
  = Ok (infer_best_batch_size_by_heuristics (Demo.model "other" 7 7)
          (available_memory (env := Demo.env 7 (Demo.GiB 20)) (Demo.model "other" 7 7)))
  /\ 1 <= infer_best_batch_size_by_heuristics (Demo.model "other" 7 7)
            (available_memory (env := Demo.env 7 (Demo.GiB 20)) (Demo.model "other" 7 7)).
Proof.
  apply (proj1 (infer_best_batch_size_without_file (Demo.env 7 (Demo.GiB 20))
                  (Demo.model "other" 7 7) 10 10 1) "float16"%string);
    reflexivity.
Defined.

Lemma infer_best_batch_size_poor_fit_witness :
  infer_best_batch_size (env := table_env scattered (Demo.GiB 20)) (Demo.model "m" 7 7)
    10 10 1
  = Ok (infer_best_batch_size_by_heuristics (Demo.model "m" 7 7)
          (available_memory (env := table_env scattered (Demo.GiB 20)) (Demo.model "m" 7 7)))
  /\ 1 <= infer_best_batch_size_by_heuristics (Demo.model "m" 7 7)
            (available_memory (env := table_env scattered (Demo.GiB 20))
               (Demo.model "m" 7 7)).
Proof.
  destruct (linregress (table_env scattered (Demo.GiB 20))
              (map fst (sort_by_key (batch_footprint scattered)))
              (map snd (sort_by_key (batch_footprint scattered))))
    as [fit|e] eqn:Hfit; [|vm_compute in Hfit; discriminate Hfit].
  apply (proj1 (infer_best_batch_size_poor_fit (table_env scattered (Demo.GiB 20))
                  (Demo.model "m" 7 7) 10 10 1 "float16"%string scattered eq_refl eq_refl)
           fit Hfit).
  vm_compute in Hfit. injection Hfit as <-. vm_compute. reflexivity.
Defined.


(** The division is the one of binary64 numbers: with 0.01 GiB per token the
    need for 20 tokens is the binary64 number nearest to 0.2, which is above
    one fifth, and 3 GiB hold 14 such sequences, not 15. *)
Example infer_best_batch_size_rounding :
  infer_best_batch_size
    (env := table_env {| only_scale_with_input_size := false;
                         batch_footprint := [(100, Float64.of_int 1); (200, Float64.of_int 2);
                                             (300, Float64.of_int 3)] |} (Demo.GiB 20))
    (Demo.model "m" 7 14) 10 10 1 = Ok 14.
Proof. vm_compute. reflexivity. Qed.

(** The fit that the concrete collaborators of [Demo.env] give is the one
    of the least squares on their calibration table. *)
Example calibration_fit_least_squares :
  Demo.least_squares (map fst (sort_by_key (batch_footprint Demo.calibration)))
    (map snd (sort_by_key (batch_footprint Demo.calibration)))
  = Ok Demo.calibration_fit.
Proof. vm_compute. reflexivity. Qed.

(** C1.  A GPU of 8 GiB, a model that occupies 6 GiB and the table
    [{10: 2.0, 20: 4.0}]: the available memory is not negative, the length
    is positive, and the estimate for 20 tokens is 0. *)
Theorem infer_best_batch_size_below_one :
  (0 <= available_memory (env := table_env Demo.calibration (Demo.GiB 8)) (Demo.model "m" 7 6))%Q
  /\ infer_best_batch_size (env := table_env Demo.calibration (Demo.GiB 8))
       (Demo.model "m" 7 6) 10 10 1 = Ok 0.
Proof. split; [vm_compute; discriminate | vm_compute; reflexivity]. Qed.

(** ** Conversations *)

Section ConversationFacts.

Context (env : Env) (conv : ConversationClass) (self : HFModel).

Implicit Types (st : State env) (config : gmap string pyval) (kwargs : Kwargs env)
  (c : Conversation conv).

Lemma seeding_first (seed : option Z) st :
  (match seed with Some seed => emit (SetAllSeeds seed) | None => ret tt end st).1
  = after st (seeding seed).
Proof.
  destruct seed; simpl; [reflexivity|].
  destruct st. unfold after. simpl. rewrite app_nil_r. reflexivity.
Qed.

Lemma call_generate_run (input : Tensor) config criteria (n : Z) kwargs st :
  call_generate input config criteria n kwargs st
  = (after st [Generate n], model_generate env (events st) input config criteria n kwargs).
Proof. reflexivity. Qed.

(** X17. Whatever its outcome, [generate_conversation] leaves the prompt
    template alone and calls the model at most once, for exactly one
    sequence: after the seeding its trace holds nothing, or the single call.
    It emits no warning and releases no memory, so nothing is ever tried
    again.  When it returns, the model was called, and the conversation
    returned is the object that was worked on. *)
Theorem generate_conversation_single_call (prompt system_prompt : string)
    (conv_history : option (Conversation conv)) (max_new_tokens min_new_tokens : Z)
    (do_sample : bool) (top_k top_p : pyval) (temperature : Q) (seed : option Z)
    (truncate_if_conv_too_long : bool) kwargs st :
  let run :=
    generate_conversation conv self prompt system_prompt conv_history max_new_tokens
      min_new_tokens do_sample top_k top_p temperature seed truncate_if_conv_too_long
      kwargs st in
  prompt_template run.1.1 = prompt_template st
  /\ (events run.1.1 = events st ++ seeding seed
      \/ events run.1.1 = events st ++ seeding seed ++ [Generate 1])
  /\ (forall c, run.2 = Ok c ->
        events run.1.1 = events st ++ seeding seed ++ [Generate 1] /\ run.1.2 = Some c).
Proof.
  unfold generate_conversation. rewrite seeding_first.
  destruct (create_generation_config self _ _ _ _ _ _) as [config|e];
    [|simpl; repeat split; [left; reflexivity | discriminate | discriminate]].
  destruct (match conv_history with None => _ | Some _ => _ end) as [c0|e];
    [|simpl; repeat split; [left; reflexivity | discriminate | discriminate]].
  destruct (set_system_prompt conv c0 system_prompt) as [c1 [[]|e]];
    [|simpl; repeat split; [left; reflexivity | discriminate | discriminate]].
  destruct (append_user_message conv c1 prompt) as [c2 [[]|e]];
    [|simpl; repeat split; [left; reflexivity | discriminate | discriminate]].
  destruct (conversation_get_prompt conv c2) as [c3 [full_prompt|e]];
    [|simpl; repeat split; [left; reflexivity | discriminate | discriminate]].
  rewrite call_generate_run.
  destruct (model_generate env _ _ _ _ _ _) as [outputs|e];
    [|simpl; repeat split; [right; rewrite app_assoc; reflexivity
                           | discriminate | discriminate]].
  destruct (post_process_sequences env _ _ _ _) as [|first rest];
    [simpl; repeat split; [right; rewrite app_assoc; reflexivity
                          | discriminate | discriminate]|].
  destruct (append_model_message conv c3 first) as [c4 [[]|e]]; simpl.
  - repeat split; [right | | ]; try (rewrite app_assoc; reflexivity).
    congruence.
  - repeat split; [right; rewrite app_assoc; reflexivity | discriminate | discriminate].
Qed.

(** X18. When the generation config cannot be built, [generate_conversation]
    raises the error of [create_generation_config] after at most the
    seeding: the model is not called and the conversation passed by the
    caller has not been touched. *)
Theorem generate_conversation_config_error (prompt system_prompt : string)
    (conv_history : option (Conversation conv)) (max_new_tokens min_new_tokens : Z)
    (do_sample : bool) (top_k top_p : pyval) (temperature : Q) (seed : option Z)
    (truncate_if_conv_too_long : bool) kwargs st (e : exn) :
  create_generation_config (env := env) self max_new_tokens min_new_tokens do_sample
    top_k top_p temperature = Raise e ->
  generate_conversation conv self prompt system_prompt conv_history max_new_tokens
    min_new_tokens do_sample top_k top_p temperature seed truncate_if_conv_too_long
    kwargs st
  = (after st (seeding seed), conv_history, Raise e).
Proof.
  intros Hcfg. unfold generate_conversation. rewrite seeding_first, Hcfg. reflexivity.
Qed.

(** X19. An error of the model, an out-of-memory error included, is raised
    as it is right after the single call, whatever the size of the request:
    unlike [generate_text], nothing is released and nothing is tried again.
    The conversation passed by the caller is then left with the new system
    prompt and the new user message, and without an answer. *)
Theorem generate_conversation_model_error (prompt system_prompt full_prompt : string)
    (c0 c1 c2 c3 : Conversation conv) (max_new_tokens min_new_tokens : Z)
    (do_sample : bool) (top_k top_p : pyval) (temperature : Q) (seed : option Z)
    (truncate_if_conv_too_long : bool) kwargs st config (e : exn) :
  create_generation_config (env := env) self max_new_tokens min_new_tokens do_sample
    top_k top_p temperature = Ok config ->
  set_system_prompt conv c0 system_prompt = (c1, Ok tt) ->
  append_user_message conv c1 prompt = (c2, Ok tt) ->
  conversation_get_prompt conv c2 = (c3, Ok full_prompt) ->
  model_generate env (events st ++ seeding seed) [tokenizer_encode env full_prompt] config
    (create_stopping_criteria self
       (Z.of_nat (length (tokenizer_encode env full_prompt))) SPNone None).1
    1 kwargs = Raise e ->
  generate_conversation conv self prompt system_prompt (Some c0) max_new_tokens
    min_new_tokens do_sample top_k top_p temperature seed truncate_if_conv_too_long
    kwargs st
  = (after st (seeding seed ++ [Generate 1]), Some c3, Raise e).
Proof.
  intros Hcfg Hsys Huser Hget Hgen. unfold generate_conversation.
  rewrite seeding_first, Hcfg, Hsys, Huser, Hget, call_generate_run.
  simpl events. rewrite Hgen. unfold after. simpl. rewrite <- app_assoc. reflexivity.
Qed.

End ConversationFacts.

(** A turn of conversation on the concrete collaborators: the system prompt
    is replaced, the user message and the answer are appended. *)
Example demo_conversation :
  generate_conversation (env := Demo.env 7 0) dialogue_class (Demo.model "m" 7 7)
    "hi" "be brief" (Some ("be long"%string, [(User, "hello"%string); (Model, "text"%string)]))
    60 5 true (PInt 50) (PFloat (9 # 10)) (9 # 10) (Some 3) true tt (Demo.start 7 0)
  = (after (Demo.start 7 0) [SetAllSeeds 3; Generate 1],
     Some ("be brief"%string,
           [(User, "hello"%string); (Model, "text"%string); (User, "hi"%string);
            (Model, "text"%string)]),
     Ok ("be brief"%string,
         [(User, "hello"%string); (Model, "text"%string); (User, "hi"%string);
          (Model, "text"%string)])).
Proof. vm_compute. reflexivity. Qed.

Lemma generate_conversation_config_error_witness :
  generate_conversation (env := Demo.env 7 0) dialogue_class model_without_ids
    "hi" "be brief" (Some ("be long"%string, [(User, "hello"%string)]))
    60 5 true (PInt 50) (PFloat (9 # 10)) (9 # 10) (Some 3) true tt (Demo.start 7 0)
  = (after (Demo.start 7 0) [SetAllSeeds 3],
     Some ("be long"%string, [(User, "hello"%string)]),
     Raise (RuntimeError "Impossible to find the `eos_token_id`.")).
Proof.
  apply (generate_conversation_config_error (Demo.env 7 0) dialogue_class model_without_ids).
  reflexivity.
Defined.

Lemma generate_conversation_model_error_witness :
  generate_conversation (env := Demo.env_exhausted) dialogue_class (Demo.model "m" 7 7)
    "hi" "be brief" (Some ("be long"%string, [(User, "hello"%string)]))
    60 5 false (PInt 50) (PFloat (9 # 10)) (9 # 10) None true tt Demo.start_exhausted
  = (after Demo.start_exhausted [Generate 1],
     Some ("be brief"%string, [(User, "hello"%string); (User, "hi"%string)]),
     Raise OutOfMemoryError).
Proof.
  exact (generate_conversation_model_error Demo.env_exhausted dialogue_class
           (Demo.model "m" 7 7) "hi" "be brief" _ _ _ _ _ 60 5 false (PInt 50)
           (PFloat (9 # 10)) (9 # 10) None true tt Demo.start_exhausted _ OutOfMemoryError
           (create_generation_config_greedy Demo.env_exhausted (Demo.model "m" 7 7)
              60 5 false (PInt 50) (PFloat (9 # 10)) (9 # 10) (PInt 2) (PInt 1)
              eq_refl eq_refl eq_refl)
           eq_refl eq_refl eq_refl eq_refl).
Defined.

(** ** The memory footprint *)

Section MemoryFacts.

Context (m : Memory.Loaded).

Lemma py_max_largest (rest : list Q) :
  forall first : Q,
    Memory.py_max first rest ∈ first :: rest
    /\ Forall (fun v => (v <= Memory.py_max first rest)%Q) (first :: rest).
Proof.
  induction rest as [|v rest IH]; intros first.
  - split; [left|]. repeat constructor. apply Qle_refl.
  - change (Memory.py_max first (v :: rest))
      with (Memory.py_max (if Qltb first v then v else first) rest).
    unfold Qltb.
    destruct (Qle_bool v first) eqn:Hle; simpl negb.
    + apply Qle_bool_iff in Hle.
      destruct (IH first) as [Hin Hall].
      split.
      * apply elem_of_cons in Hin as [->|Hin]; [left | right; right; exact Hin].
      * apply Forall_cons in Hall as [Hfirst Hall].
        repeat apply Forall_cons_2; auto. eapply Qle_trans; eauto.
    + assert (Hlt : (first < v)%Q).
      { apply Qnot_le_lt. intros H. apply Qle_bool_iff in H. congruence. }
      destruct (IH v) as [Hin Hall].
      split.
      * right. exact Hin.
      * apply Forall_cons in Hall as [Hv Hall].
        repeat apply Forall_cons_2; auto.
        eapply Qle_trans; [apply Qlt_le_weak; exact Hlt | exact Hv].
Qed.

Lemma init_attributes (self : Memory.Attributes) :
  Memory.init m = Ok self ->
  exists gpu_memory_map input_device,
    self = Memory.footprint_attributes m gpu_memory_map input_device.
Proof.
  unfold Memory.init. intros H.
  destruct (Memory.hf_device_map m) as [device_map|].
  - destruct (Memory.measure m _ ∅) as [map|e]; [|discriminate].
    inversion H. eauto.
  - destruct (negb (Memory.get_device m =? -1)).
    + destruct (Memory.allocated_by_loading m _) as [v|e]; [|discriminate].
      inversion H. eauto.
    + inversion H. eauto.
Qed.

(** X20. After [__init__], [get_memory_footprint] never gives an empty
    dictionary, none of its entries is above
    [get_max_device_memory_footprint], and one of them is equal to it. *)
Theorem get_memory_footprint_max (self : Memory.Attributes) :
  Memory.init m = Ok self ->
  let report := Memory.get_memory_footprint self in
  report <> []
  /\ Forall (fun item => (item.2 <= Memory.get_max_device_memory_footprint self)%Q) report
  /\ Exists (fun item => item.2 = Memory.get_max_device_memory_footprint self) report.
Proof.
  intros Hinit. destruct (init_attributes self Hinit) as (footprints & idev & ->).
  unfold Memory.get_memory_footprint, Memory.get_max_device_memory_footprint,
    Memory.get_gpu_memory_footprint, Memory.footprint_attributes. simpl.
  rewrite <- (length_map_to_list footprints).
  destruct (map_to_list footprints) as [|[d v] items] eqn:Hitems; simpl.
  - repeat split; [discriminate | | left; reflexivity].
    repeat constructor. apply Qle_refl.
  - destruct (py_max_largest items.*2 v) as [Hin Hall].
    change (v :: items.*2) with (((d, v) :: items).*2) in Hin, Hall.
    change ((Memory.gpu d, v) :: map (fun item : Z * Q => (Memory.gpu item.1, item.2)) items)
      with ((fun item : Z * Q => (Memory.gpu item.1, item.2)) <$> ((d, v) :: items)).
    repeat split; [discriminate | |].
    + apply Forall_forall. intros item Hitem.
      apply list_elem_of_fmap in Hitem as (item' & -> & Hitem'). simpl.
      rewrite Forall_forall in Hall. apply Hall.
      apply list_elem_of_fmap. eauto.
    + apply list_elem_of_fmap in Hin as (item & Heq & Hitem).
      apply Exists_exists. exists (Memory.gpu item.1, item.2). split.
      * apply (list_elem_of_fmap_2 (fun item : Z * Q => (Memory.gpu item.1, item.2))) in Hitem.
        exact Hitem.
      * simpl. symmetry. exact Heq.
Qed.

Lemma reference_memory_lookup (reference : gmap Z Z) (device : Z) :
  Memory.reference_memory m = Some reference ->
  reference !! device
  = if decide (0 <= device < Memory.device_count m)
    then Some (Memory.memory_allocated_before m device) else None.
Proof.
  unfold Memory.reference_memory. destruct (Memory.is_available m); [|discriminate].
  intros H. inversion H as [Href]. clear H Href.
  assert (Hfold : forall (l : list Z) (r0 : gmap Z Z),
            (device ∈ l ->
             foldl (fun r i => <[i := Memory.memory_allocated_before m i]> r) r0 l !! device
             = Some (Memory.memory_allocated_before m device))
            /\ (device ∉ l ->
                foldl (fun r i => <[i := Memory.memory_allocated_before m i]> r) r0 l
                  !! device = r0 !! device)).
  { induction l as [|i l IH]; intros r0; cbn [foldl].
    - split; [intros Hin; inversion Hin | reflexivity].
    - destruct (IH (<[i := Memory.memory_allocated_before m i]> r0)) as [IH1 IH2]. split.
      + intros Hin. destruct (decide (device ∈ l)) as [Hl|Hl]; [auto|].
        rewrite IH2 by exact Hl.
        apply elem_of_cons in Hin as [->|?]; [apply lookup_insert_eq | contradiction].
      + intros Hnin. apply not_elem_of_cons in Hnin as [Hne Hl].
        rewrite IH2 by exact Hl. apply lookup_insert_ne. congruence. }
  destruct (Hfold (seqZ 0 (Memory.device_count m)) ∅) as [Hin Hnin].
  destruct (decide (0 <= device < Memory.device_count m)) as [Hrange|Hrange].
  - apply Hin. apply elem_of_seqZ. lia.
  - rewrite Hnin, lookup_empty; [reflexivity|].
    intros H. apply elem_of_seqZ in H. lia.
Qed.

Lemma allocated_by_loading_recorded (device : Z) :
  recorded m device -> Memory.allocated_by_loading m device = Ok (loaded_on m device).
Proof.
  intros [Hcuda Hrange]. unfold Memory.allocated_by_loading.
  destruct (Memory.reference_memory m) as [reference|] eqn:Href.
  - rewrite (reference_memory_lookup reference device Href).
    case_decide; [reflexivity | lia].
  - unfold Memory.reference_memory in Href. rewrite Hcuda in Href. discriminate.
Qed.

Lemma allocated_by_loading_Ok (device : Z) (footprint : Q) :
  Memory.allocated_by_loading m device = Ok footprint ->
  recorded m device /\ footprint = loaded_on m device.
Proof.
  unfold Memory.allocated_by_loading.
  destruct (Memory.reference_memory m) as [reference|] eqn:Href; [|discriminate].
  rewrite (reference_memory_lookup reference device Href).
  case_decide as Hrange; [|discriminate].
  intros H. inversion H. split; [|reflexivity]. split; [|exact Hrange].
  unfold Memory.reference_memory in Href.
  destruct (Memory.is_available m); [reflexivity | discriminate].
Qed.

Lemma measure_Ok (gpu_devices : list Z) :
  forall footprints footprints' : gmap Z Q,
    Memory.measure m gpu_devices footprints = Ok footprints' ->
    Forall (recorded m) gpu_devices
    /\ (forall device, device ∈ gpu_devices ->
          footprints' !! device = Some (loaded_on m device))
    /\ (forall device, device ∉ gpu_devices ->
          footprints' !! device = footprints !! device).
Proof.
  induction gpu_devices as [|d rest IH]; intros footprints footprints' H; cbn [Memory.measure] in H.
  - inversion H. repeat split; [constructor | intros device Hin; inversion Hin].
  - destruct (Memory.allocated_by_loading m d) as [v|e] eqn:Hd; [|discriminate].
    apply allocated_by_loading_Ok in Hd as [Hrec ->].
    destruct (IH _ _ H) as (Hall & Hin & Hnin). repeat split.
    + constructor; assumption.
    + intros device Hdevice. destruct (decide (device ∈ rest)) as [Hrest|Hrest]; [auto|].
      rewrite Hnin by exact Hrest.
      apply elem_of_cons in Hdevice as [->|?]; [apply lookup_insert_eq | contradiction].
    + intros device Hdevice. apply not_elem_of_cons in Hdevice as [Hne Hrest].
      rewrite Hnin by exact Hrest. apply lookup_insert_ne. congruence.
Qed.

Lemma measure_recorded (gpu_devices : list Z) :
  forall footprints : gmap Z Q,
    Forall (recorded m) gpu_devices ->
    exists footprints', Memory.measure m gpu_devices footprints = Ok footprints'.
Proof.
  induction gpu_devices as [|d rest IH]; intros footprints Hall; simpl.
  - eauto.
  - apply Forall_cons in Hall as [Hd Hall].
    rewrite (allocated_by_loading_recorded d Hd). apply IH. exact Hall.
Qed.

Lemma init_Ok (self : Memory.Attributes) :
  Memory.init m = Ok self ->
  Forall (recorded m) (gpus_used m)
  /\ (forall device, device ∈ gpus_used m ->
        Memory.gpu_memory_map self !! device = Some (loaded_on m device))
  /\ (forall device, device ∉ gpus_used m -> Memory.gpu_memory_map self !! device = None)
  /\ Memory.input_device self
     = match gpus_used m with
       | first :: rest => Some (foldl Z.min first rest)
       | [] => None
       end.
Proof.
  unfold Memory.init, gpus_used. intros H.
  destruct (Memory.hf_device_map m) as [device_map|].
  - destruct (Memory.measure m _ ∅) as [footprints|e] eqn:Hmeasure; [|discriminate].
    inversion H. cbn [Memory.gpu_memory_map Memory.input_device Memory.footprint_attributes].
    apply measure_Ok in Hmeasure as (Hall & Hin & Hnin).
    refine (conj Hall (conj Hin (conj _ eq_refl))).
    intros device Hdevice. rewrite Hnin by exact Hdevice. apply lookup_empty.
  - destruct (Memory.get_device m =? -1) eqn:Hcpu; cbn [negb] in H.
    + inversion H. cbn [Memory.gpu_memory_map Memory.input_device Memory.footprint_attributes].
      refine (conj _ (conj _ (conj _ eq_refl))).
      * constructor.
      * intros device Hin. inversion Hin.
      * intros device _. apply lookup_empty.
    + destruct (Memory.allocated_by_loading m _) as [v|e] eqn:Hd; [|discriminate].
      apply allocated_by_loading_Ok in Hd as [Hrec ->].
      inversion H. cbn [Memory.gpu_memory_map Memory.input_device Memory.footprint_attributes].
      refine (conj _ (conj _ (conj _ eq_refl))).
      * apply Forall_cons_2; [exact Hrec | constructor].
      * intros device Hin. apply list_elem_of_singleton in Hin as ->.
        apply lookup_insert_eq.
      * intros device Hnin. rewrite lookup_insert_ne; [apply lookup_empty|].
        intros <-. apply Hnin. left.
Qed.

Lemma init_recorded :
  Forall (recorded m) (gpus_used m) -> exists self, Memory.init m = Ok self.
Proof.
  intros Hall. unfold Memory.init. unfold gpus_used in Hall.
  destruct (Memory.hf_device_map m) as [device_map|].
  - destruct (measure_recorded _ ∅ Hall) as [footprints ->]. eauto.
  - destruct (Memory.get_device m =? -1); simpl; [eauto|].
    apply Forall_cons in Hall as [Hd _].
    rewrite (allocated_by_loading_recorded _ Hd). eauto.
Qed.

(** X21. The measurement succeeds exactly when CUDA is available and every
    GPU that holds a part of the model is one of the devices whose memory
    was recorded before the loading; the map then has one entry per such
    GPU, and nothing else: what the loading allocated on it, in GiB. *)
Theorem init_gpu_memory_map :
  (is_Ok (Memory.init m) = true <-> Forall (recorded m) (gpus_used m))
  /\ (forall self device footprint,
        Memory.init m = Ok self ->
        (Memory.get_gpu_memory_footprint self !! device = Some footprint
         <-> device ∈ gpus_used m /\ footprint = loaded_on m device)).
Proof.
  split; [split|].
  - destruct (Memory.init m) as [self|e] eqn:Hinit; [|discriminate].
    intros _. apply (init_Ok self Hinit).
  - intros Hall. destruct (init_recorded Hall) as [self ->]. reflexivity.
  - intros self device footprint Hinit.
    destruct (init_Ok self Hinit) as (_ & Hin & Hnin & _).
    unfold Memory.get_gpu_memory_footprint. split.
    + intros Hlookup. destruct (decide (device ∈ gpus_used m)) as [Hused|Hused].
      * rewrite (Hin _ Hused) in Hlookup. inversion Hlookup. auto.
      * rewrite (Hnin _ Hused) in Hlookup. discriminate.
    + intros [Hused ->]. apply Hin. exact Hused.
Qed.

Lemma foldl_min_least (rest : list Z) :
  forall first : Z,
    foldl Z.min first rest ∈ first :: rest
    /\ Forall (Z.le (foldl Z.min first rest)) (first :: rest).
Proof.
  induction rest as [|x rest IH]; intros first; simpl.
  - split; [left|]. repeat constructor. lia.
  - destruct (IH (Z.min first x)) as [Hin Hall].
    apply Forall_cons in Hall as [Hmin Hall]. split.
    + apply elem_of_cons in Hin as [Heq|Hin]; [|right; right; exact Hin].
      rewrite Heq. destruct (Z.min_spec first x) as [[_ ->]|[_ ->]]; [left | right; left].
    + repeat constructor; [lia | lia | exact Hall].
Qed.

Lemma sorted_distinct (l : list Z) :
  StronglySorted Z.le l -> NoDup l -> StronglySorted Z.lt l.
Proof.
  induction l as [|x l IH]; intros Hsorted Hnodup; [constructor|].
  apply StronglySorted_cons in Hsorted as [Hle Hsorted].
  apply NoDup_cons in Hnodup as [Hx Hnodup].
  apply StronglySorted_cons. split; [|auto].
  apply Forall_forall. intros y Hy. rewrite Forall_forall in Hle.
  specialize (Hle y Hy). assert (x <> y) by (intros ->; contradiction). lia.
Qed.

(** X22. After [__init__], [get_gpu_devices] lists the GPUs that hold a
    part of the model, each once and in increasing order, and the input
    device is the first of them (the CPU when there is none). *)
Theorem get_gpu_devices_input_device (self : Memory.Attributes) :
  Memory.init m = Ok self ->
  StronglySorted Z.lt (Memory.get_gpu_devices self)
  /\ (forall device, device ∈ Memory.get_gpu_devices self <-> device ∈ gpus_used m)
  /\ head (Memory.get_gpu_devices self) = Memory.input_device self.
Proof.
  intros Hinit. destruct (init_Ok self Hinit) as (_ & Hin & Hnin & Hinput).
  unfold Memory.get_gpu_devices.
  set (keys := (map_to_list (Memory.gpu_memory_map self)).*1).
  pose proof (merge_sort_Permutation Z.le keys) as Hperm.
  assert (Hsorted : StronglySorted Z.lt (merge_sort Z.le keys)).
  { apply sorted_distinct.
    - apply Sorted_StronglySorted; [intros x y z; lia|].
      apply Sorted_merge_sort. intros x y. lia.
    - rewrite Hperm. apply NoDup_fst_map_to_list. }
  assert (Hkeys : forall device, device ∈ merge_sort Z.le keys <-> device ∈ gpus_used m).
  { intros device. rewrite Hperm. unfold keys. rewrite list_elem_of_fmap. split.
    - intros ([d v] & -> & Hitem). apply elem_of_map_to_list in Hitem. simpl.
      destruct (decide (d ∈ gpus_used m)) as [Hused|Hused]; [exact Hused|].
      rewrite (Hnin _ Hused) in Hitem. discriminate.
    - intros Hused. exists (device, loaded_on m device). split; [reflexivity|].
      apply elem_of_map_to_list. apply Hin. exact Hused. }
  refine (conj Hsorted (conj Hkeys _)).
  rewrite Hinput.
  destruct (gpus_used m) as [|first rest].
  - destruct (merge_sort Z.le keys) as [|x sorted]; [reflexivity|].
    exfalso. assert (Hx : x ∈ x :: sorted) by left. apply Hkeys in Hx. inversion Hx.
  - destruct (foldl_min_least rest first) as [Hmin Hleast].
    destruct (merge_sort Z.le keys) as [|x sorted].
    + exfalso. apply Hkeys in Hmin. inversion Hmin.
    + simpl. f_equal.
      apply StronglySorted_cons in Hsorted as [Hlt _].
      assert (Hx : x ∈ first :: rest) by (apply Hkeys; left).
      rewrite Forall_forall in Hleast. specialize (Hleast x Hx).
      apply Hkeys in Hmin. apply elem_of_cons in Hmin as [Heq|Hmin]; [lia|].
      rewrite Forall_forall in Hlt. specialize (Hlt _ Hmin). lia.
Qed.

End MemoryFacts.

(** Both GPUs of the example were recorded before the loading. *)
Lemma two_gpus_recorded : Forall (recorded two_gpus) (gpus_used two_gpus).
Proof. repeat apply Forall_cons_2; try apply Forall_nil; split; (reflexivity || (simpl; lia)). Qed.

Example two_gpus_devices :
  match Memory.init two_gpus with
  | Ok self =>
      Memory.get_gpu_devices self = [0; 1]
      /\ Memory.input_device self = Some 0
      /\ Qeq (Memory.get_max_device_memory_footprint self) 5
  | Raise _ => False
  end.
Proof. vm_compute. repeat split. Qed.

Lemma get_memory_footprint_max_witness :
  exists self,
    Memory.init two_gpus = Ok self
    /\ Memory.get_memory_footprint self <> []
    /\ Forall (fun item => (item.2 <= Memory.get_max_device_memory_footprint self)%Q)
         (Memory.get_memory_footprint self)
    /\ Exists (fun item => item.2 = Memory.get_max_device_memory_footprint self)
         (Memory.get_memory_footprint self).
Proof.
  destruct (init_recorded two_gpus two_gpus_recorded) as [self Hinit].
  exists self. split; [exact Hinit|].
  exact (get_memory_footprint_max two_gpus self Hinit).
Defined.

Lemma init_gpu_memory_map_witness : is_Ok (Memory.init two_gpus) = true.
Proof. exact (proj2 (proj1 (init_gpu_memory_map two_gpus)) two_gpus_recorded). Defined.

Lemma get_gpu_devices_input_device_witness :
  exists self,
    Memory.init two_gpus = Ok self
    /\ StronglySorted Z.lt (Memory.get_gpu_devices self)
    /\ (forall device, device ∈ Memory.get_gpu_devices self <-> device ∈ gpus_used two_gpus)
    /\ head (Memory.get_gpu_devices self) = Memory.input_device self.
Proof.
  destruct (init_recorded two_gpus two_gpus_recorded) as [self Hinit].
  exists self. split; [exact Hinit|].
  exact (get_gpu_devices_input_device two_gpus self Hinit).
Defined.
